(** * SKU dashboard: normalisation pipeline and KPI engine

    A shallow embedding of [process_listing_data.py] (JSON decoding, history
    flattening, the revenue/price merge and the per-item forward fill) and of
    the KPI part of [dashboard.py] (deduplication, date window, snapshots,
    growth, risk and scaling classification), followed by the properties
    the specification states about them.

    Conventions.
    - Python objects that reach [safe_parse_json] are values of [pyval].
    - An exception is an explicit outcome: every function that can raise
      returns a [result].
    - A nullable float column (NaN) is an [option Q]; arithmetic is exact,
      so rounding is outside this model.  A datetime column is an
      [option Z] counting calendar days, [None] being NaT.
    - pandas operations are modelled by what they do on such tables:
      a DataFrame is the list of its rows in index order.
    - What the decoder gets from [json.loads] and from NumPy's truth
      value of an empty array is a parameter ([Library]); the properties
      hold for every library. *)

From Stdlib Require Import QArith ZArith String Ascii Sorting.Sorted Permutation Lia.
From stdpp Require Import base decidable option list strings gmap sorting.

Local Open Scope Z_scope.
Set Warnings "-register-all,-clear-no-such-hyp".

(** ** Outcomes *)

Module Outcome.

Inductive exn : Type :=
| ValueError
| TypeError
| JSONDecodeError
| KeyError
| RecursionError
| StopException.

Inductive result (A : Type) : Type :=
| Ok (a : A)
| Raise (e : exn).

Arguments Ok {A} a.
Arguments Raise {A} e.

#[global] Instance result_bind : MBind result := fun A B k m =>
  match m with
  | Ok a => k a
  | Raise e => Raise e
  end.

#[global] Instance result_ret : MRet result := fun A a => Ok a.

Definition raises {A} (m : result A) : bool :=
  match m with
  | Ok _ => false
  | Raise _ => true
  end.

End Outcome.

Import Outcome.

(** ** process_listing_data.py: decoding and flattening *)

Module Listing.

(** The Python values a cell or a decoded JSON document can be. A [dict]
    is the association list of its items, in insertion order. *)
Inductive pyval : Type :=
| PyNone
| PyNaN
| PyBool (b : bool)
| PyInt (z : Z)
| PyFloat (q : Q)
| PyStr (s : string)
| PyList (l : list pyval)
| PyDict (kv : list (string * pyval)).

(** [isinstance(v, dict)], [isinstance(v, list)]. *)
Definition is_dict (v : pyval) : bool :=
  match v with PyDict _ => true | _ => false end.

Definition is_list (v : pyval) : bool :=
  match v with PyList _ => true | _ => false end.

Definition is_none (v : pyval) : bool :=
  match v with PyNone => true | _ => false end.

(** [d.get(k)]: the value under [k], [None] when the key is missing. *)
Fixpoint dict_get (kv : list (string * pyval)) (k : string) : pyval :=
  match kv with
  | [] => PyNone
  | (k', v) :: rest => if String.eqb k' k then v else dict_get rest k
  end.

(** The elements of a list, the items of a dict. *)
Definition elements (v : pyval) : list pyval :=
  match v with PyList l => l | _ => [] end.

Definition items (v : pyval) : list (string * pyval) :=
  match v with PyDict kv => kv | _ => [] end.

(** What [pd.isna] answers: one boolean for a scalar (and for a dict,
    which it treats as an opaque object), an element-wise boolean array
    for a list. *)
Inductive isna_answer : Type :=
| IsnaScalar (b : bool)
| IsnaArray (bs : list bool).

Definition is_null (v : pyval) : bool :=
  match v with
  | PyNone | PyNaN => true
  | _ => false
  end.

(** [np.asarray(l, dtype=object)], which [pd.isna] applies to a list:
    while the values at the current depth are all lists of one common
    length, they open a further dimension; the cells of the array are the
    values at the last dimension. NumPy stops at 32 dimensions, the list
    itself being the first. *)
Definition common_length (vs : list pyval) : option nat :=
  match vs with
  | PyList l :: rest =>
      if forallb (fun v => is_list v && (length (elements v) =? length l)%nat) rest
      then Some (length l)
      else None
  | _ => None
  end.

Fixpoint array_cells (dims : nat) (vs : list pyval) : list pyval :=
  match dims with
  | O => vs
  | S d =>
      match common_length vs with
      | Some _ => array_cells d (concat (map elements vs))
      | None => vs
      end
  end.

Arguments array_cells : simpl never.

Definition pd_isna (v : pyval) : isna_answer :=
  match v with
  | PyList l => IsnaArray (map is_null (array_cells 31 l))
  | _ => IsnaScalar (is_null v)
  end.

(** What the decoder takes from the libraries it calls.
    - [json_loads] is [json.loads] on text: it returns the decoded
      document or raises. Malformed text raises [JSONDecodeError]; text
      with an integer literal beyond the interpreter's digit limit raises
      a plain [ValueError], and text nested beyond the recursion limit
      raises [RecursionError].
    - [empty_array_truth] is the truth value of an empty array: false
      (with a deprecation warning) before NumPy 2.2, [ValueError] from
      NumPy 2.2 on. *)
Record Library : Type := {
  json_loads : string -> result pyval;
  empty_array_truth : result bool
}.

(** Truth value of that answer in an [if]: NumPy refuses an array with
    more than one element ("truth value of an array is ambiguous"); a
    one-element array counts as its element, and an empty array as the
    library says. *)
Definition truth (lib : Library) (a : isna_answer) : result bool :=
  match a with
  | IsnaScalar b => Ok b
  | IsnaArray [] => empty_array_truth lib
  | IsnaArray [b] => Ok b
  | IsnaArray (_ :: _ :: _) => Raise ValueError
  end.

Section Decoder.

Variable lib : Library.

(** [json.loads(raw)] on an arbitrary object: text is parsed, anything
    that is not text is a [TypeError]. *)
Definition py_json_loads (raw : pyval) : result pyval :=
  match raw with
  | PyStr s => json_loads lib s
  | _ => Raise TypeError
  end.

(** [try: ... except (json.JSONDecodeError, TypeError): return None]: any
    other exception goes on to the caller. *)
Definition except_decode_errors (m : result pyval) : result pyval :=
  match m with
  | Raise JSONDecodeError | Raise TypeError => Ok PyNone
  | other => other
  end.

Definition safe_parse_json (raw : pyval) : result pyval :=
  truth lib (pd_isna raw) ≫= fun na : bool =>
  if na then Ok PyNone
  else if is_dict raw || is_list raw then Ok raw
  else except_decode_errors (py_json_loads raw).

(** The columns of the raw listing table that the flatteners read. *)
Record RawListingRecord : Type := {
  item_id : pyval;
  monthly_revenue_history : pyval;
  promotion_history : pyval
}.

(** One appended dictionary [{"item_id": .., "date": .., <value>: ..}]. *)
Record FlatRecord : Type := {
  fr_item_id : pyval;
  fr_date : pyval;
  fr_value : pyval
}.

(** The inner loop [for entry in parsed], appending to [records]. *)
Fixpoint append_entries (value_key : string) (item : pyval)
    (parsed : list pyval) (records : list FlatRecord) : list FlatRecord :=
  match parsed with
  | [] => records
  | entry :: rest =>
      if negb (is_dict entry) then
        append_entries value_key item rest records
      else
        append_entries value_key item rest
          (records ++ [ {| fr_item_id := item;
                           fr_date := dict_get (items entry) "date";
                           fr_value := dict_get (items entry) value_key |} ])
  end.

(** The outer loop [for _, row in df.iterrows()]. The two flatteners have
    the same body; they differ in the column they read ([payload]) and in
    the key they rename ([value_key]). The result is the list [records]
    that is handed to [pd.DataFrame], whose typing of the columns is
    outside this model. *)
Fixpoint flatten_rows (payload : RawListingRecord -> pyval)
    (value_key : string) (df : list RawListingRecord)
    (records : list FlatRecord) : result (list FlatRecord) :=
  match df with
  | [] => Ok records
  | row :: rest =>
      safe_parse_json (payload row) ≫= fun parsed : pyval =>
      if is_none parsed || negb (is_list parsed) then
        flatten_rows payload value_key rest records
      else
        flatten_rows payload value_key rest
          (append_entries value_key (item_id row) (elements parsed) records)
  end.

Definition flatten_revenue_history (df : list RawListingRecord)
  : result (list FlatRecord) :=
  flatten_rows monthly_revenue_history "avg_monthly_revenue" df [].

Definition flatten_promotion_history (df : list RawListingRecord)
  : result (list FlatRecord) :=
  flatten_rows promotion_history "value" df [].

End Decoder.

(** The rows a decoded history stands for, in the words of the
    specification: one row per element that is a mapping, none for any
    other element. *)
Definition mapping_row (value_key : string) (item entry : pyval)
  : option FlatRecord :=
  match entry with
  | PyDict kv =>
      Some {| fr_item_id := item;
              fr_date := dict_get kv "date";
              fr_value := dict_get kv value_key |}
  | _ => None
  end.

Definition mapping_rows (value_key : string) (item : pyval)
    (entries : list pyval) : list FlatRecord :=
  omap (mapping_row value_key item) entries.

End Listing.

(** ** pandas operations on lists of rows *)

Module Frame.

Section Sorting.
Context {A : Type} (leb : A -> A -> bool).

(** [sort_values] is a stable sort: a row goes in front of the first
    row that is not smaller, so rows with equal keys keep their order. *)
Fixpoint insert_row (x : A) (l : list A) : list A :=
  match l with
  | [] => [x]
  | y :: l' => if leb x y then x :: y :: l' else y :: insert_row x l'
  end.

Fixpoint sort_values (l : list A) : list A :=
  match l with
  | [] => []
  | x :: l' => insert_row x (sort_values l')
  end.
End Sorting.

Section KeepFirst.
Context {A K : Type} `{Countable K} (key : A -> K).

(** [drop_duplicates(keep="first")] and [unique()]: one pass that
    remembers the keys already seen. *)
Fixpoint keep_first (seen : gset K) (l : list A) : list A :=
  match l with
  | [] => []
  | x :: l' =>
      if decide (key x ∈ seen) then keep_first seen l'
      else x :: keep_first ({[ key x ]} ∪ seen) l'
  end.
End KeepFirst.

Definition unique {K : Type} `{Countable K} (l : list K) : list K :=
  keep_first (fun k => k) ∅ l.

(** Comparisons on nullable columns: any comparison with NaN or NaT is
    false. *)
Definition Qltb (x y : Q) : bool := negb (Qle_bool y x).

Definition opt_ltb (x : option Q) (y : Q) : bool :=
  match x with Some a => Qltb a y | None => false end.

Definition opt_gtb (x : option Q) (y : Q) : bool :=
  match x with Some a => Qltb y a | None => false end.

Definition opt_geb (x : option Q) (y : Q) : bool :=
  match x with Some a => Qle_bool y a | None => false end.

Definition date_eqb (x y : option Z) : bool :=
  match x, y with
  | Some a, Some b => a =? b
  | _, _ => false
  end.

(** Column sum with [skipna=True]: nulls are left out, the empty sum
    is 0. *)
Definition col_sum (col : list (option Q)) : Q :=
  fold_left Qplus (omap (fun v => v) col) 0%Q.

(** Column mean with [skipna=True]: NaN when no value is left. *)
Definition col_mean (col : list (option Q)) : option Q :=
  match omap (fun v => v) col with
  | [] => None
  | vs => Some (fold_left Qplus vs 0 / inject_Z (Z.of_nat (length vs)))%Q
  end.

(** [<] on keys that may be NaT. *)
Definition key_ltb (a b : option Z) : bool :=
  match a, b with
  | Some x, Some y => x <? y
  | _, _ => false
  end.

(** [min(xs, key=f)]: the first element whose key is smallest; a later
    element replaces the current one only when its key is strictly
    smaller. An empty argument raises [ValueError]. *)
Definition py_min (key : Z -> option Z) (xs : list Z) : result Z :=
  match xs with
  | [] => Raise ValueError
  | x :: rest =>
      Ok (fold_left (fun best d => if key_ltb (key d) (key best) then d else best)
            rest x)
  end.

End Frame.

Import Frame.

(** ** process_listing_data.py, steps 6 and 7: merge and forward fill *)

Module Reconcile.

(** A row of [revenue_df] or of [promotion_df] once the date column has
    been converted ([errors="coerce"] turns a bad date into NaT). *)
Record SeriesRow : Type := {
  s_item : string;
  s_date : option Z;
  s_value : option Q
}.

Record MergedRow : Type := {
  m_item : string;
  m_date : option Z;
  m_revenue : option Q;
  m_price : option Q
}.

Definition series_key (r : SeriesRow) : string * option Z :=
  (s_item r, s_date r).

Definition merged_key (r : MergedRow) : string * option Z :=
  (m_item r, m_date r).

(** The rows of the right frame whose key equals that of a left row (a
    null date matches a null date). *)
Definition matches (l : SeriesRow) (right : list SeriesRow) : list SeriesRow :=
  filter (fun r => series_key r = series_key l) right.

Definition join_row (l : SeriesRow) (price : option Q) : MergedRow :=
  {| m_item := s_item l; m_date := s_date l;
     m_revenue := s_value l; m_price := price |}.

(** [pd.merge(revenue_df, promotion_df, on=["item_id", "date"], how="left")]:
    the left rows in their order, each once per matching right row and
    once with a null price when nothing matches. A frame built from no
    records has no columns, so the merge keys are missing. *)
Definition merge_left (revenue_df promotion_df : list SeriesRow)
  : result (list MergedRow) :=
  match revenue_df, promotion_df with
  | [], _ | _, [] => Raise KeyError
  | _, _ =>
      Ok (flat_map
            (fun l =>
               match matches l promotion_df with
               | [] => [join_row l None]
               | ms => map (fun r => join_row l (s_value r)) ms
               end)
            revenue_df)
  end.

(** Ascending order on dates, NaT last. *)
Definition date_leb (a b : option Z) : bool :=
  match a, b with
  | Some x, Some y => x <=? y
  | _, None => true
  | None, Some _ => false
  end.

(** The order of [sort_values(by=["item_id", "date"])]. *)
Definition key_leb (k1 k2 : string * option Z) : bool :=
  match String.compare k1.1 k2.1 with
  | Lt => true
  | Eq => date_leb k1.2 k2.2
  | Gt => false
  end.

Definition merged_leb (r1 r2 : MergedRow) : bool :=
  key_leb (merged_key r1) (merged_key r2).

Definition set_price (r : MergedRow) (p : option Q) : MergedRow :=
  {| m_item := m_item r; m_date := m_date r;
     m_revenue := m_revenue r; m_price := p |}.

(** [groupby("item_id")["price"].ffill()]: walking down the table, each
    item remembers its last non-null price; a null price takes what its
    own item remembers. *)
Fixpoint ffill_from (last : gmap string Q) (rows : list MergedRow)
  : list MergedRow :=
  match rows with
  | [] => []
  | r :: rest =>
      match m_price r with
      | Some p => r :: ffill_from (<[ m_item r := p ]> last) rest
      | None => set_price r (last !! m_item r) :: ffill_from last rest
      end
  end.


Definition groupby_ffill (rows : list MergedRow) : list MergedRow :=
  ffill_from ∅ rows.

(** Step 7. *)
Definition forward_fill (merged_df : list MergedRow) : list MergedRow :=
  groupby_ffill (sort_values merged_leb merged_df).

(** Steps 6 and 7 together: the Series Reconciler. *)
Definition reconcile (revenue_df promotion_df : list SeriesRow)
  : result (list MergedRow) :=
  merge_left revenue_df promotion_df ≫= fun merged_df : list MergedRow =>
  Ok (forward_fill merged_df).

End Reconcile.

(** ** dashboard.py: filters, window and KPIs *)

Module Dashboard.

(** The columns of the canonical table that the KPI code reads. The item
    identifier is the key every row of the table is built around (steps 6
    to 9 of the pipeline); the brand is null when the pipeline found no
    metadata for the item or the raw brand cell was empty. *)
Record CanonicalRow : Type := {
  item_id : string;
  brand_name : option string;
  title : option string;
  date : option Z;
  revenue : option Q;
  price : option Q;
  rating : option Q;
  rating_count : option Z
}.

(** The sidebar state: what the widgets have returned. The brands that
    can be selected are the elements of [all_brands], a null brand
    included when it is the only one. *)
Record Filters : Type := {
  date_start : Z;
  date_end : Z;
  sel_brands : list (option string);
  sel_skus : list string;
  rating_thresh : Q;
  count_thresh : Z;
  growth_thresh : Z
}.

Inductive label : Type := AtRisk | HighScaling | Stable.

(** A row of [sku_latest]. *)
Record SkuLatest : Type := {
  sl_item_id : string;
  revenue_latest : option Q;
  sl_rating : option Q;
  sl_rating_count : option Z;
  sl_brand_name : option string;
  sl_title : option string
}.

(** A row of [sku_merged]. *)
Record SkuRow : Type := {
  sku : SkuLatest;
  revenue_4w : option Q;
  sku_growth_pct : option Q
}.

Definition row_key (r : CanonicalRow) : string * option Z :=
  (item_id r, date r).

(** [pd.Timedelta(weeks=4)], in days. *)
Definition FOUR_WEEKS : Z := 28.

Definition col_max (col : list Z) : option Z :=
  match col with
  | [] => None
  | d :: rest => Some (fold_left Z.max rest d)
  end.

Definition count_gtb (c : option Z) (t : Z) : bool :=
  match c with Some n => t <? n | None => false end.

(** Truth value of a float: zero is false. *)
Definition truthy (q : Q) : bool := negb (Qeq_bool q 0).

(** [groupby(...).agg("first")]: the first non-null value of the group. *)
Definition first_valid {B : Type} (col : list (option B)) : option B :=
  head (omap (fun v => v) col).

(** The lambda of [sku_merged.apply]: a null operand gives a null
    result. *)
Definition item_growth (rev_latest rev_4w : option Q) : option Q :=
  match rev_4w with
  | Some r =>
      if Qltb 0 r then
        match rev_latest with
        | Some l => Some ((l - r) / r * 100)%Q
        | None => None
        end
      else None
  | None => None
  end.

Definition growth_leb (a b : SkuRow) : bool :=
  match sku_growth_pct a, sku_growth_pct b with
  | Some x, Some y => Qle_bool x y
  | _, None => true
  | None, Some _ => false
  end.

(** The order in which [sorted] leaves brands that it can sort: names
    ascending. A null brand is a float NaN, and Python refuses to compare
    it with a name, so a null brand can only stand alone; its place below
    is immaterial. *)
Definition brand_leb (a b : option string) : bool :=
  match a, b with
  | Some x, Some y => String.leb x y
  | _, None => true
  | None, Some _ => false
  end.

(** [sorted(values)] on the distinct values of a nullable text column:
    [TypeError] ("'<' not supported between instances of 'float' and
    'str'") when a null stands among names, the sorted list otherwise. *)
Definition py_sorted (values : list (option string))
  : result (list (option string)) :=
  if decide (None ∈ values /\ Exists is_Some values) then Raise TypeError
  else Ok (sort_values brand_leb values).


Section Script.
Variable cfg : Filters.
Variable raw : list CanonicalRow.

(** Line 67: the item-level view. *)
Definition drop_duplicates : list CanonicalRow :=
  keep_first row_key ∅ raw.

Definition in_range (r : CanonicalRow) : bool :=
  match date r with
  | Some d => (date_start cfg <=? d) && (d <=? date_end cfg)
  | None => false
  end.

(** Line 113. Every row that is kept has a date. *)
Definition item_df : list CanonicalRow :=
  filter (fun r => in_range r) drop_duplicates.

Definition item_dates : list Z := omap date item_df.

Definition LATEST_DATE : option Z := col_max item_dates.

Definition FOUR_W_AGO : option Z :=
  (fun d => d - FOUR_WEEKS) <$> LATEST_DATE.

Definition distance (d : Z) : option Z :=
  (fun t => Z.abs (d - t)) <$> FOUR_W_AGO.

(** Lines 116-117. *)
Definition nearest_4w : result Z :=
  py_min distance (unique item_dates).

(** Line 119, which raises when the brands cannot be sorted. *)
Definition sorted_brands : result (list (option string)) :=
  py_sorted (unique (map brand_name item_df)).

(** What line 119 binds when it returns. *)
Definition all_brands : list (option string) :=
  sort_values brand_leb (unique (map brand_name item_df)).

Definition active_brands : list (option string) :=
  match sel_brands cfg with
  | [] => all_brands
  | _ => sel_brands cfg
  end.

(** [isin] matches a null brand with a null in the list. Every row of
    this model has an item identifier, so this [sorted] compares names
    only. *)
Definition all_skus : list string :=
  sort_values String.leb
    (unique (map item_id
               (filter (fun r => brand_name r ∈ active_brands) item_df))).

Definition active_skus : list string :=
  match sel_skus cfg with
  | [] => all_skus
  | _ => sel_skus cfg
  end.

Definition filt : list CanonicalRow :=
  filter (fun r => brand_name r ∈ active_brands /\ item_id r ∈ active_skus)
    item_df.

(** The two snapshots. *)
Definition latest : list CanonicalRow :=
  filter (fun r => date_eqb (date r) LATEST_DATE) filt.

Definition prev (ref_date : Z) : list CanonicalRow :=
  filter (fun r => date_eqb (date r) (Some ref_date)) filt.

Definition total_rev_latest : Q := col_sum (map revenue latest).

Definition total_rev_4w (ref_date : Z) : Q :=
  col_sum (map revenue (prev ref_date)).

Definition growth_pct (ref_date : Z) : Q :=
  if truthy (total_rev_4w ref_date) then
    ((total_rev_latest - total_rev_4w ref_date) / total_rev_4w ref_date * 100)%Q
  else 0%Q.

Definition at_risk (rt : option Q) (rc : option Z) : bool :=
  opt_ltb rt (rating_thresh cfg) && count_gtb rc (count_thresh cfg).

Definition risky : list CanonicalRow :=
  filter (fun r => at_risk (rating r) (rating_count r)) latest.

Definition rev_at_risk : Q := col_sum (map revenue risky).

Definition risk_share : Q :=
  if truthy total_rev_latest then (rev_at_risk / total_rev_latest * 100)%Q
  else 0%Q.

(** [groupby("item_id")]: the groups, in the order of their keys. *)
Definition group_keys (rows : list CanonicalRow) : list string :=
  sort_values String.leb (unique (map item_id rows)).

Definition group (k : string) (rows : list CanonicalRow) : list CanonicalRow :=
  filter (fun r => item_id r = k) rows.

Definition sku_latest : list SkuLatest :=
  map (fun k =>
         let g := group k latest in
         {| sl_item_id := k;
            revenue_latest := first_valid (map revenue g);
            sl_rating := first_valid (map rating g);
            sl_rating_count := first_valid (map rating_count g);
            sl_brand_name := first_valid (map brand_name g);
            sl_title := first_valid (map title g) |})
      (group_keys latest).

Definition sku_prev (ref_date : Z) : list (string * option Q) :=
  map (fun k => (k, first_valid (map revenue (group k (prev ref_date)))))
      (group_keys (prev ref_date)).

Definition with_growth (s : SkuLatest) (rev_4w : option Q) : SkuRow :=
  {| sku := s; revenue_4w := rev_4w;
     sku_growth_pct := item_growth (revenue_latest s) rev_4w |}.

(** The left merge on [item_id], then the [growth_pct] column. *)
Definition sku_merged (ref_date : Z) : list SkuRow :=
  flat_map
    (fun s =>
       match filter (fun p => p.1 = sl_item_id s) (sku_prev ref_date) with
       | [] => [with_growth s None]
       | ms => map (fun p => with_growth s p.2) ms
       end)
    sku_latest.

Definition scaling (r : SkuRow) : bool :=
  opt_gtb (sku_growth_pct r) (inject_Z (growth_thresh cfg))
  && opt_geb (sl_rating (sku r)) (rating_thresh cfg).

Definition high_scaling (ref_date : Z) : list SkuRow :=
  filter (fun r => scaling r) (sku_merged ref_date).

Definition high_scaling_count (ref_date : Z) : nat :=
  length (high_scaling ref_date).

Definition high_scaling_rev (ref_date : Z) : Q :=
  col_sum (map (fun r => revenue_latest (sku r)) (high_scaling ref_date)).

(** [latest["rating"].mean() if len(latest) else 0]; [None] is NaN. *)
Definition avg_rating : option Q :=
  match latest with
  | [] => Some 0%Q
  | _ => col_mean (map rating latest)
  end.

(** The KPI tile prints "N/A" when [avg_rating] is falsy. *)
Definition avg_rating_not_available : bool :=
  match avg_rating with
  | Some q => negb (truthy q)
  | None => false
  end.

(** Overview tab: rows with a growth value, and their single label. *)
Definition scatter_data (ref_date : Z) : list SkuRow :=
  filter (fun r => is_Some (sku_growth_pct r)) (sku_merged ref_date).

Definition risk_label (r : SkuRow) : label :=
  if at_risk (sl_rating (sku r)) (sl_rating_count (sku r)) then AtRisk
  else if scaling r then HighScaling
  else Stable.

Definition risk_labels (ref_date : Z) : list (SkuRow * label) :=
  map (fun r => (r, risk_label r)) (scatter_data ref_date).

(** Brand tab: revenue per brand on the latest snapshot, in the order of
    the [groupby], which leaves the rows without a brand out; the
    reordering by revenue for the chart is left out. *)
Definition brand_rev : list (string * Q) :=
  map (fun b => (b, col_sum (map revenue
                               (filter (fun r => brand_name r = Some b) latest))))
      (sort_values String.leb (unique (omap brand_name latest))).

(** Risk tab. Only the rows matter below, not the order among rows of
    equal growth. *)
Definition declining (ref_date : Z) : list SkuRow :=
  sort_values growth_leb
    (filter (fun r => opt_ltb (sku_growth_pct r) 0) (sku_merged ref_date)).

(** What the script has computed when it reaches the tabs. *)
Record Kpis : Type := {
  k_latest_date : option Z;
  k_reference_date : Z;
  k_total_rev_latest : Q;
  k_total_rev_4w : Q;
  k_growth_pct : Q;
  k_rev_at_risk : Q;
  k_risky : list CanonicalRow;
  k_sku_merged : list SkuRow;
  k_high_scaling : list SkuRow;
  k_high_scaling_rev : Q;
  k_avg_rating : option Q;
  k_risk_labels : list (SkuRow * label);
  k_brand_rev : list (string * Q);
  k_declining : list SkuRow
}.

(** The script from the date check to the tabs, on the values that the
    widgets have returned. [st.stop()] ends the run; an empty date window
    makes [min] raise, and a null brand among named ones makes [sorted]
    raise. *)
Definition dashboard : result Kpis :=
  if date_end cfg <? date_start cfg then Raise StopException
  else
    nearest_4w ≫= fun ref_date : Z =>
    sorted_brands ≫= fun _ : list (option string) =>
    Ok {| k_latest_date := LATEST_DATE;
          k_reference_date := ref_date;
          k_total_rev_latest := total_rev_latest;
          k_total_rev_4w := total_rev_4w ref_date;
          k_growth_pct := growth_pct ref_date;
          k_rev_at_risk := rev_at_risk;
          k_risky := risky;
          k_sku_merged := sku_merged ref_date;
          k_high_scaling := high_scaling ref_date;
          k_high_scaling_rev := high_scaling_rev ref_date;
          k_avg_rating := avg_rating;
          k_risk_labels := risk_labels ref_date;
          k_brand_rev := brand_rev;
          k_declining := declining ref_date |}.

End Script.

End Dashboard.

(** ** Sample tables *)

Module Samples.
Import Listing Reconcile Dashboard.

Definition revenue_sample : list SeriesRow :=
  [ {| s_item := "A"%string; s_date := Some 1; s_value := Some (100 # 1) |} ].

Definition price_sample : list SeriesRow :=
  [ {| s_item := "A"%string; s_date := Some 2; s_value := Some (5 # 1) |} ].

Definition canonical (item brand : string) (day : Z) (rev rate : Q) (count : Z)
  : CanonicalRow :=
  {| item_id := item; brand_name := Some brand; title := None; date := Some day;
     revenue := Some rev; price := None; rating := Some rate;
     rating_count := Some count |}.

Definition default_filters (first last : Z) (brands : list string) : Filters :=
  {| date_start := first; date_end := last; sel_brands := map Some brands;
     sel_skus := []; rating_thresh := 4; count_thresh := 200;
     growth_thresh := 20 |}.

(** Two items sampled on days 30 and 56, and on days 26 and 56; the
    second item is listed twice on day 56 (a variant). *)
Definition sample_table : list CanonicalRow :=
  [ canonical "sku-1" "acme" 30 100 (9 # 2) 50;
    canonical "sku-1" "acme" 56 150 (9 # 2) 50;
    canonical "sku-2" "zenith" 26 80 3 500;
    canonical "sku-2" "zenith" 28 50 3 500;
    canonical "sku-2" "zenith" 56 60 3 500;
    canonical "sku-2" "zenith" 56 60 3 500 ].

(** One item sampled on days 30 and 56: no row falls between days 31
    and 40. *)
Definition gap_table : list CanonicalRow :=
  [ canonical "sku-1" "acme" 30 100 (9 # 2) 50;
    canonical "sku-1" "acme" 56 150 (9 # 2) 50 ].

(** Days 30 and 26 are both two days from day 28, four weeks before the
    latest day 56; day 30 comes first in the table. *)
Definition tie_table : list CanonicalRow :=
  [ canonical "sku-1" "acme" 30 100 (9 # 2) 50;
    canonical "sku-1" "acme" 56 150 (9 # 2) 50;
    canonical "sku-2" "zenith" 26 80 3 500 ].

(** The row of [sku_merged] for the second item of [sample_table], with
    day 28 as reference date. *)
Definition sample_sku_2 : SkuRow :=
  {| sku := {| sl_item_id := "sku-2"; revenue_latest := Some 60%Q;
               sl_rating := Some 3%Q; sl_rating_count := Some 500;
               sl_brand_name := Some "zenith"%string; sl_title := None |};
     revenue_4w := Some 50%Q;
     sku_growth_pct := Some ((60 - 50) / 50 * 100)%Q |}.

(** Text that opens [n] lists and closes none. *)
Definition nested_text (n : N) : string :=
  N.iter n (String "[") EmptyString.

(** A parser for four texts: a history of one empty mapping and one
    number, a number, [null], and a hundred thousand opening brackets, which is
    beyond the recursion limit; any other text is malformed. *)
Definition sample_loads (s : string) : result pyval :=
  if String.eqb s "[{}, 7]" then Ok (PyList [PyDict []; PyInt 7])
  else if String.eqb s "7" then Ok (PyInt 7)
  else if String.eqb s "null" then Ok PyNone
  else if String.eqb s (nested_text 100000) then Raise RecursionError
  else Raise JSONDecodeError.

Definition sample_library : Library :=
  {| json_loads := sample_loads; empty_array_truth := Ok false |}.

Definition good_record : RawListingRecord :=
  {| Listing.item_id := PyStr "sku-1";
     monthly_revenue_history := PyStr "[{}, 7]";
     promotion_history := PyStr "[{}, 7]" |}.

Definition bad_record : RawListingRecord :=
  {| Listing.item_id := PyStr "sku-2";
     monthly_revenue_history := PyStr "oops";
     promotion_history := PyNaN |}.

(** A record whose revenue history does not decode: the parser gives up
    on its nesting. *)
Definition deep_record : RawListingRecord :=
  {| Listing.item_id := PyStr "sku-3";
     monthly_revenue_history := PyStr (nested_text 100000);
     promotion_history := PyStr "[{}, 7]" |}.



(** Item A priced on day 1 only, item B priced on day 2. *)
Definition merged_row (item : string) (day : Z) (p : option Q) : MergedRow :=
  {| m_item := item; m_date := Some day; m_revenue := None; m_price := p |}.

Definition merged_sample : list MergedRow :=
  [ merged_row "B" 2 (Some 7%Q); merged_row "A" 3 None;
    merged_row "A" 1 (Some 3%Q); merged_row "A" 2 None ].

End Samples.

(** ** The decoder on table cells *)

Module Cells.
Import Listing.

(** What [safe_parse_json] makes of a value that is not a list: a mapping
    is kept; text is parsed, malformed text is absent, and what the parser
    raises otherwise is raised; anything else (null, NaN, a number, a
    boolean) is absent. *)
Definition decode_cell (lib : Library) (raw : pyval) : result pyval :=
  match raw with
  | PyDict _ => Ok raw
  | PyStr s =>
      match json_loads lib s with
      | Ok v => Ok v
      | Raise JSONDecodeError | Raise TypeError => Ok PyNone
      | Raise e => Raise e
      end
  | _ => Ok PyNone
  end.

(** The records that a decoded history stands for, in the words of the
    specification: those of its mappings when it is a sequence, none
    otherwise. *)
Definition history_rows (value_key : string) (item : pyval)
    (decoded : result pyval) : list FlatRecord :=
  match decoded with
  | Ok (PyList entries) => mapping_rows value_key item entries
  | _ => []
  end.

End Cells.

(** ** process_listing_data.py: page content, metadata and the final table *)

Module Metadata.
Import Listing Reconcile.

(** The dictionary that [extract_page_content_fields] returns. *)
Record PageContent : Type := {
  title : pyval;
  category : pyval;
  vertical : pyval;
  subCategory : pyval;
  superCategory : pyval
}.

(** The metadata columns of the raw table ([metadata_cols]), and its
    [page_content] cell. *)
Record ListingRow : Type := {
  item_id : string;
  unique_identifier : option string;
  brand_name : option string;
  rating : option Q;
  rating_count : option Z;
  variations_count : option Z;
  page_content : pyval
}.

(** A row of [page_content_df] before it is merged with [metadata_df]. *)
Record ContentRow : Type := {
  c_item_id : string;
  c_fields : PageContent
}.

(** A row of [page_content_df] after that merge: the metadata columns are
    null when no metadata row matches. *)
Record ItemRow : Type := {
  i_content : ContentRow;
  i_metadata : option ListingRow
}.

(** A row of the final table, in the order of [final_columns]. A column
    that the left merge could not fill is NaN. *)
Record FinalRow : Type := {
  f_item_id : string;
  f_unique_identifier : option string;
  f_brand_name : option string;
  f_title : pyval;
  f_category : pyval;
  f_vertical : pyval;
  f_subCategory : pyval;
  f_superCategory : pyval;
  f_date : option Z;
  f_revenue : option Q;
  f_price : option Q;
  f_rating : option Q;
  f_rating_count : option Z;
  f_variations_count : option Z
}.

Section LeftMerge.
Context {L R K : Type} `{EqDecision K} (lkey : L -> K) (rkey : R -> K).

(** [pd.merge(left, right, on=key, how="left")] on frames that have the
    key column: every left row, in order, once per right row with its key
    and once alone when there is none. *)
Definition merge_on (left : list L) (right : list R) : list (L * option R) :=
  flat_map
    (fun l =>
       match filter (fun r => rkey r = lkey l) right with
       | [] => [(l, None)]
       | ms => map (fun r => (l, Some r)) ms
       end)
    left.
End LeftMerge.

Section Extract.
Variable lib : Library.

Definition extract_page_content_fields (raw : pyval) : result PageContent :=
  safe_parse_json lib raw ≫= fun parsed : pyval =>
  if is_none parsed || negb (is_dict parsed) then
    Ok {| title := PyNone; category := PyNone; vertical := PyNone;
          subCategory := PyNone; superCategory := PyNone |}
  else
    Ok {| title := dict_get (items parsed) "title";
          category := dict_get (items parsed) "category";
          vertical := dict_get (items parsed) "vertical";
          subCategory := dict_get (items parsed) "subCategory";
          superCategory := dict_get (items parsed) "superCategory" |}.

(** [df["page_content"].apply(extract_page_content_fields)], with the
    [item_id] column put beside the result. *)
Fixpoint extract_column (df : list ListingRow) : result (list ContentRow) :=
  match df with
  | [] => Ok []
  | row :: rest =>
      extract_page_content_fields (page_content row) ≫= fun fields : PageContent =>
      extract_column rest ≫= fun rows : list ContentRow =>
      Ok ({| c_item_id := item_id row; c_fields := fields |} :: rows)
  end.

(** [metadata_df]: the first row of every item. *)
Definition metadata_df (df : list ListingRow) : list ListingRow :=
  keep_first item_id ∅ df.

(** Step 2. A table without rows gives a frame without columns, and the
    column selection of line 94 raises [KeyError]. *)
Definition page_content_df (df : list ListingRow) : result (list ItemRow) :=
  extract_column df ≫= fun rows : list ContentRow =>
  match df with
  | [] => Raise KeyError
  | _ =>
      Ok (map (fun p => {| i_content := p.1; i_metadata := p.2 |})
            (merge_on c_item_id item_id
               (keep_first c_item_id ∅ rows) (metadata_df df)))
  end.
End Extract.

Definition i_item_id (r : ItemRow) : string := c_item_id (i_content r).

(** Steps 8 and 9: one final row from a reconciled row and the item row
    joined to it, if any. *)
Definition final_row (p : MergedRow * option ItemRow) : FinalRow :=
  let m := p.1 in
  match p.2 with
  | Some i =>
      let fields := c_fields (i_content i) in
      {| f_item_id := m_item m;
         f_unique_identifier := i_metadata i ≫= unique_identifier;
         f_brand_name := i_metadata i ≫= brand_name;
         f_title := title fields;
         f_category := category fields;
         f_vertical := vertical fields;
         f_subCategory := subCategory fields;
         f_superCategory := superCategory fields;
         f_date := m_date m;
         f_revenue := m_revenue m;
         f_price := m_price m;
         f_rating := i_metadata i ≫= rating;
         f_rating_count := i_metadata i ≫= rating_count;
         f_variations_count := i_metadata i ≫= variations_count |}
  | None =>
      {| f_item_id := m_item m;
         f_unique_identifier := None;
         f_brand_name := None;
         f_title := PyNaN;
         f_category := PyNaN;
         f_vertical := PyNaN;
         f_subCategory := PyNaN;
         f_superCategory := PyNaN;
         f_date := m_date m;
         f_revenue := m_revenue m;
         f_price := m_price m;
         f_rating := None;
         f_rating_count := None;
         f_variations_count := None |}
  end.

Definition final_key (r : FinalRow) : string * option Z :=
  (f_item_id r, f_date r).

Definition final_leb (r1 r2 : FinalRow) : bool :=
  key_leb (final_key r1) (final_key r2).

(** Steps 8 to 10 on the reconciled table and the item table. *)
Definition final_df (merged_df : list MergedRow) (items : list ItemRow)
  : list FinalRow :=
  sort_values final_leb
    (map final_row (merge_on m_item i_item_id merged_df items)).

(** [main] from step 2 to step 10, on the raw table and on the two
    flattened series with their dates converted (steps 3 to 5). *)
Definition main_table (lib : Library)
    (df : list ListingRow) (revenue_df promotion_df : list SeriesRow)
  : result (list FinalRow) :=
  page_content_df lib df ≫= fun items : list ItemRow =>
  reconcile revenue_df promotion_df ≫= fun merged_df : list MergedRow =>
  Ok (final_df merged_df items).

End Metadata.

(** ** dashboard.py: filter defaults, brand concentration and trend *)

Module Tabs.
Import Dashboard.

(** A NumPy float: a division by zero gives an infinity or NaN (and a
    warning), not an exception. The sign of a zero is not modelled. *)
Inductive npfloat : Type :=
| Finite (q : Q)
| PosInf
| NegInf
| NotANumber.

Definition np_div (a b : Q) : npfloat :=
  if Qeq_bool b 0 then
    if Qeq_bool a 0 then NotANumber
    else if Qltb 0 a then PosInf else NegInf
  else Finite (a / b)%Q.

(** Multiplication by a positive constant. *)
Definition np_scale (x : npfloat) (k : Q) : npfloat :=
  match x with
  | Finite q => Finite (q * k)%Q
  | other => other
  end.

Definition np_gtb (x : npfloat) (k : Q) : bool :=
  match x with
  | Finite q => Qltb k q
  | PosInf => true
  | NegInf | NotANumber => false
  end.

Definition col_min (col : list Z) : option Z :=
  match col with
  | [] => None
  | d :: rest => Some (fold_left Z.min rest d)
  end.

(** [FILTER_DEFAULTS], which [_clear_filters] writes back into the
    session: the whole date range of the table, nothing selected, and the
    three thresholds. A table without any date has no such range. *)
Definition FILTER_DEFAULTS (raw : list CanonicalRow) : option Filters :=
  match col_min (omap date raw), col_max (omap date raw) with
  | Some first, Some last =>
      Some {| date_start := first; date_end := last;
              sel_brands := []; sel_skus := [];
              rating_thresh := 4; count_thresh := 200; growth_thresh := 20 |}
  | _, _ => None
  end.

Section Script.
Variable cfg : Filters.
Variable raw : list CanonicalRow.

Definition brand_total : Q :=
  fold_left Qplus (map snd (brand_rev cfg raw)) 0%Q.

(** [brand_rev.nlargest(3, "revenue")["revenue"]]: the three largest
    revenues. *)
Definition top_3 : list Q :=
  take 3 (sort_values (fun a b => Qle_bool b a) (map snd (brand_rev cfg raw))).

Definition top_3_share : npfloat :=
  np_scale (np_div (fold_left Qplus top_3 0%Q) brand_total) 100.

(** [top_3_share > 60]: the concentration warning is shown. *)
Definition over_concentrated : bool := np_gtb top_3_share 60.

(** Trend tab with no SKU selected: revenue per date over the filtered
    table, in date order. *)
Definition trend_agg : list (Z * Q) :=
  map (fun d =>
         (d, col_sum (map revenue
                        (filter (fun r => date r = Some d) (filt cfg raw)))))
      (sort_values Z.leb (unique (omap date (filt cfg raw)))).

End Script.

End Tabs.

(** ** Rows of a left merge *)

Module Joins.
Import Reconcile Metadata Dashboard.

(** The rows that step 6 gives for one revenue row. *)
Definition joined (pr : list SeriesRow) (l : SeriesRow) : list MergedRow :=
  match matches l pr with
  | [] => [join_row l None]
  | ms => map (fun r => join_row l (s_value r)) ms
  end.

(** The item row that step 8 puts beside a reconciled row when no item
    occurs twice in the item table. *)
Definition joined_item (items : list ItemRow) (m : MergedRow) : option ItemRow :=
  head (filter (fun i => i_item_id i = m_item m) items).

(** The reference revenue that the merge of [sku_latest] with [sku_prev]
    puts beside an item. *)
Definition joined_revenue_4w (cfg : Filters) (raw : list CanonicalRow)
    (ref : Z) (s : SkuLatest) : option Q :=
  head (filter (fun p : string * option Q => p.1 = sl_item_id s)
          (sku_prev cfg raw ref)) ≫= snd.

End Joins.

(** ** More sample tables *)

Module MoreSamples.
Import Listing Reconcile Metadata.

(** Revenue for item A on days 1 and 2 and for item B on day 1; a price
    for item A on day 1 and for item B on day 3. *)
Definition revenue_rows : list SeriesRow :=
  [ {| s_item := "A"; s_date := Some 1; s_value := Some 100%Q |};
    {| s_item := "A"; s_date := Some 2; s_value := Some 110%Q |};
    {| s_item := "B"; s_date := Some 1; s_value := Some 50%Q |} ].

Definition price_rows : list SeriesRow :=
  [ {| s_item := "A"; s_date := Some 1; s_value := Some 5%Q |};
    {| s_item := "B"; s_date := Some 3; s_value := Some 7%Q |} ].

(** Item A listed twice, with two brands and two documents, and item B
    with a document that is not JSON. *)
Definition listing_rows : list ListingRow :=
  [ {| item_id := "A"; unique_identifier := Some "u1"%string;
       brand_name := Some "acme"%string; rating := Some 4%Q;
       rating_count := Some 10; variations_count := Some 2;
       page_content := PyStr "[{}, 7]" |};
    {| item_id := "A"; unique_identifier := Some "u2"%string;
       brand_name := Some "zenith"%string; rating := Some 3%Q;
       rating_count := Some 20; variations_count := Some 2;
       page_content := PyStr "7" |};
    {| item_id := "B"; unique_identifier := None;
       brand_name := Some "acme"%string; rating := None;
       rating_count := None; variations_count := None;
       page_content := PyStr "oops" |} ].

Definition item_row_A : ItemRow :=
  {| i_content := {| c_item_id := "A";
                     c_fields := {| title := PyNone; category := PyNone;
                                    vertical := PyNone; subCategory := PyNone;
                                    superCategory := PyNone |} |};
     i_metadata := None |}.

End MoreSamples.

(** * Properties *)

(** ** Order and sorting facts *)

Section SortFacts.
Context {A : Type} (leb : A -> A -> bool).
Hypothesis leb_total : forall x y, leb x y = false -> leb y x = true.
Hypothesis leb_trans : forall x y z,
  leb x y = true -> leb y z = true -> leb x z = true.

Let le (x y : A) : Prop := leb x y = true.

Lemma insert_row_perm x l : insert_row leb x l ≡ₚ x :: l.
Proof.
  induction l as [|y l IH]; simpl; [done|].
  destruct (leb x y); [done|].
  rewrite IH. apply Permutation_swap.
Qed.

Lemma sort_values_perm l : sort_values leb l ≡ₚ l.
Proof.
  induction l as [|x l IH]; simpl; [done|].
  rewrite insert_row_perm. by rewrite IH.
Qed.

Lemma insert_row_sorted x l :
  StronglySorted le l -> StronglySorted le (insert_row leb x l).
Proof.
  induction 1 as [|y l Hs IH Hy]; simpl.
  - repeat constructor.
  - destruct (leb x y) eqn:Hxy.
    + constructor; [by constructor|].
      constructor; [done|].
      eapply Forall_impl; [exact Hy|].
      intros z Hz. by eapply leb_trans.
    + constructor; [done|].
      rewrite insert_row_perm. constructor; [|done].
      by apply leb_total.
Qed.

Lemma sort_values_sorted l : StronglySorted le (sort_values leb l).
Proof.
  induction l as [|x l IH]; simpl; [constructor|].
  by apply insert_row_sorted.
Qed.

Lemma insert_row_least x l :
  Forall (le x) l -> insert_row leb x l = x :: l.
Proof.
  destruct 1 as [|y l Hy _]; simpl; [done|].
  unfold le in Hy. by rewrite Hy.
Qed.

Section Filter.
Context (P : A -> Prop) `{!forall x, Decision (P x)}.


End Filter.
End SortFacts.

Section StringOrder.

Lemma ascii_compare_refl c : Ascii.compare c c = Eq.
Proof. apply N.compare_refl. Qed.

Lemma string_compare_refl s : String.compare s s = Eq.
Proof.
  induction s as [|c s IH]; simpl; [done|].
  by rewrite ascii_compare_refl.
Qed.

Lemma string_compare_lt_trans s1 s2 s3 :
  String.compare s1 s2 = Lt -> String.compare s2 s3 = Lt ->
  String.compare s1 s3 = Lt.
Proof.
  revert s2 s3.
  induction s1 as [|c1 s1 IH]; intros [|c2 s2] [|c3 s3]; simpl; try done.
  destruct (Ascii.compare c1 c2) eqn:E12;
    destruct (Ascii.compare c2 c3) eqn:E23; try done.
  - apply Ascii.compare_eq_iff in E12, E23. subst.
    rewrite ascii_compare_refl. apply IH.
  - apply Ascii.compare_eq_iff in E12. subst. by rewrite E23.
  - apply Ascii.compare_eq_iff in E23. subst. by rewrite E12.
  - intros _ _. unfold Ascii.compare in *.
    rewrite N.compare_lt_iff in E12, E23.
    assert (H : (N_of_ascii c1 < N_of_ascii c3)%N) by lia.
    apply N.compare_lt_iff in H. by rewrite H.
Qed.

Lemma string_leb_total s1 s2 :
  String.leb s1 s2 = false -> String.leb s2 s1 = true.
Proof.
  intros H. destruct (String.leb_total s1 s2) as [H'|H']; congruence.
Qed.

Lemma string_leb_trans s1 s2 s3 :
  String.leb s1 s2 = true -> String.leb s2 s3 = true ->
  String.leb s1 s3 = true.
Proof.
  unfold String.leb.
  destruct (String.compare s1 s2) eqn:E12; try done;
    destruct (String.compare s2 s3) eqn:E23; try done; intros _ _.
  - apply String.compare_eq_iff in E12, E23. subst.
    by rewrite string_compare_refl.
  - apply String.compare_eq_iff in E12. subst. by rewrite E23.
  - apply String.compare_eq_iff in E23. subst. by rewrite E12.
  - by rewrite (string_compare_lt_trans _ _ _ E12 E23).
Qed.

End StringOrder.

(** ** The Series Reconciler *)

Section ReconcileFacts.
Import Reconcile.

Lemma date_leb_total a b : date_leb a b = false -> date_leb b a = true.
Proof. destruct a, b; simpl; try done. intros H. lia. Qed.

Lemma date_leb_trans a b c :
  date_leb a b = true -> date_leb b c = true -> date_leb a c = true.
Proof. destruct a, b, c; simpl; try done. intros H1 H2. lia. Qed.

Lemma key_leb_total k1 k2 : key_leb k1 k2 = false -> key_leb k2 k1 = true.
Proof.
  unfold key_leb. rewrite (String.compare_antisym k2.1 k1.1).
  destruct (String.compare k1.1 k2.1); simpl; try done.
  apply date_leb_total.
Qed.

Lemma key_leb_trans k1 k2 k3 :
  key_leb k1 k2 = true -> key_leb k2 k3 = true -> key_leb k1 k3 = true.
Proof.
  unfold key_leb.
  destruct (String.compare k1.1 k2.1) eqn:E12; try done;
    destruct (String.compare k2.1 k3.1) eqn:E23; try done.
  - apply String.compare_eq_iff in E12, E23. rewrite E12, E23.
    rewrite string_compare_refl. apply date_leb_trans.
  - apply String.compare_eq_iff in E12. rewrite E12, E23. done.
  - apply String.compare_eq_iff in E23. rewrite <- E23, E12. done.
  - by rewrite (string_compare_lt_trans _ _ _ E12 E23).
Qed.

Lemma merged_leb_total r1 r2 :
  merged_leb r1 r2 = false -> merged_leb r2 r1 = true.
Proof. apply key_leb_total. Qed.

Lemma merged_leb_trans r1 r2 r3 :
  merged_leb r1 r2 = true -> merged_leb r2 r3 = true -> merged_leb r1 r3 = true.
Proof. apply key_leb_trans. Qed.



Lemma ffill_from_keys last rows :
  map merged_key (ffill_from last rows) = map merged_key rows.
Proof.
  revert last. induction rows as [|r rows IH]; intros last; simpl; [done|].
  destruct (m_price r); simpl; by rewrite IH.
Qed.


Lemma ffill_from_length last rows :
  length (ffill_from last rows) = length rows.
Proof.
  revert last. induction rows as [|r rows IH]; intros last; simpl; [done|].
  destruct (m_price r); simpl; by rewrite IH.
Qed.







End ReconcileFacts.

Section ReconcileClaims.
Import Reconcile Samples.

Lemma merge_rows_keys (l : SeriesRow) (promotion_df : list SeriesRow) k :
  k ∈ map merged_key
        (match matches l promotion_df with
         | [] => [join_row l None]
         | ms => map (fun r => join_row l (s_value r)) ms
         end)
  <-> k = series_key l.
Proof.
  destruct (matches l promotion_df) as [|m ms]; simpl.
  - rewrite list_elem_of_singleton. done.
  - split.
    + intros [->|Hk]%elem_of_cons; [done|].
      apply list_elem_of_fmap in Hk as (x & -> & Hx).
      apply list_elem_of_fmap in Hx as (y & -> & _). done.
    + intros ->. apply elem_of_cons. by left.
Qed.

Lemma joined_keys (rev pr : list SeriesRow) k :
  k ∈ map merged_key
        (flat_map
           (fun l =>
              match matches l pr with
              | [] => [join_row l None]
              | ms => map (fun r => join_row l (s_value r)) ms
              end)
           rev)
  <-> k ∈ map series_key rev.
Proof.
  induction rev as [|l rev IH]; simpl; [reflexivity|].
  rewrite map_app, elem_of_app, elem_of_cons, IH, merge_rows_keys.
  reflexivity.
Qed.

Lemma merge_left_keys revenue_df promotion_df merged_df k :
  merge_left revenue_df promotion_df = Ok merged_df ->
  k ∈ map merged_key merged_df <-> k ∈ map series_key revenue_df.
Proof.
  unfold merge_left.
  destruct revenue_df as [|l0 ls]; [done|].
  destruct promotion_df as [|p0 ps]; [done|].
  intros [= <-]. exact (joined_keys (l0 :: ls) (p0 :: ps) k).
Qed.

Lemma forward_fill_keys merged_df k :
  k ∈ map merged_key (forward_fill merged_df) <-> k ∈ map merged_key merged_df.
Proof.
  unfold forward_fill, groupby_ffill. rewrite ffill_from_keys.
  assert (Hp : sort_values merged_leb merged_df ≡ₚ merged_df)
    by apply sort_values_perm.
  by rewrite Hp.
Qed.

(** C1, as stated, fails: with revenue for item A on day 1 only and a
    price for item A on day 2 only, the reconciled output is the single
    row of day 1, and day 2, present in the price series, is missing. *)
Lemma full_outer_join_fails :
  ("A"%string, Some 2) ∈ map series_key price_sample /\
  reconcile revenue_sample price_sample
  = Ok [ {| m_item := "A"; m_date := Some 1;
            m_revenue := Some (100 # 1); m_price := None |} ] /\
  forall out, reconcile revenue_sample price_sample = Ok out ->
              ("A"%string, Some 2) ∉ map merged_key out.
Proof.
  split; [apply list_elem_of_singleton; reflexivity|].
  split; [reflexivity|].
  intros out [= <-] Hin.
  vm_compute in Hin. apply list_elem_of_singleton in Hin. discriminate Hin.
Qed.

(** C1, amended: the reconciler is a left join from the revenue series.
    When both series have rows, it returns a table whose (item, date)
    pairs are exactly those of the revenue series: every revenue date
    survives, and a date that only the price series has does not. *)
Theorem reconcile_is_left_join (revenue_df promotion_df : list SeriesRow) :
  revenue_df <> [] -> promotion_df <> [] ->
  exists out,
    reconcile revenue_df promotion_df = Ok out /\
    forall k, k ∈ map merged_key out <-> k ∈ map series_key revenue_df.
Proof.
  intros Hr Hp.
  destruct (merge_left revenue_df promotion_df) as [m|e] eqn:Hm.
  - exists (forward_fill m). split.
    + unfold reconcile. by rewrite Hm.
    + intros k. rewrite forward_fill_keys. by eapply merge_left_keys.
  - unfold merge_left in Hm.
    destruct revenue_df; [done|]. destruct promotion_df; done.
Qed.

Lemma reconcile_is_left_join_witness :
  exists out,
    reconcile revenue_sample price_sample = Ok out /\
    forall k, k ∈ map merged_key out <-> k ∈ map series_key revenue_sample.
Proof.
  apply (reconcile_is_left_join revenue_sample price_sample); discriminate.
Defined.


End ReconcileClaims.

(** ** The decoder and the flatteners *)

Section ListingClaims.
Import Listing.
Variable lib : Library.

(** On text the decoder returns what the parser returns, takes the two
    exceptions of its [except] clause as absent, and lets any other
    exception through. *)
Lemma safe_parse_json_text s :
  safe_parse_json lib (PyStr s) = except_decode_errors (json_loads lib s).
Proof. reflexivity. Qed.

Lemma safe_parse_json_uncaught s e :
  json_loads lib s = Raise e -> e <> JSONDecodeError -> e <> TypeError ->
  safe_parse_json lib (PyStr s) = Raise e.
Proof.
  intros He Hj Ht. rewrite safe_parse_json_text, He. by destruct e.
Qed.

(** A value that is neither text nor a list never makes it raise. *)
Lemma safe_parse_json_not_text raw :
  is_list raw = false -> (forall s, raw <> PyStr s) ->
  raises (safe_parse_json lib raw) = false.
Proof.
  intros Hl Hs. destruct raw; try discriminate Hl; try reflexivity.
  by destruct (Hs s).
Qed.

Lemma safe_parse_json_null raw :
  is_list raw = false -> is_null raw = true ->
  safe_parse_json lib raw = Ok PyNone.
Proof.
  intros Hl Hn. unfold safe_parse_json.
  destruct raw; try discriminate Hl; try discriminate Hn; reflexivity.
Qed.

Lemma safe_parse_json_dict kv :
  safe_parse_json lib (PyDict kv) = Ok (PyDict kv).
Proof. done. Qed.

(** A list of two or more elements, the first of which is not itself a
    list, never comes back. *)
Lemma safe_parse_json_long_list x y l :
  is_list x = false ->
  safe_parse_json lib (PyList (x :: y :: l)) = Raise ValueError.
Proof.
  intros Hx. unfold safe_parse_json.
  destruct x; try discriminate Hx; reflexivity.
Qed.

(** C8 fails on the code: an already decoded history of two entries is
    not returned as it is, the decoder raises [ValueError]. The null test
    [pd.isna] comes before the [isinstance] test and answers with an
    array on a list. *)
Theorem safe_parse_json_raises_on_decoded_history :
  safe_parse_json lib
    (PyList [ PyDict [("date", PyStr "2024-01-01"); ("avg_monthly_revenue", PyInt 100)];
              PyDict [("date", PyStr "2024-02-01"); ("avg_monthly_revenue", PyInt 120)] ])
  = Raise ValueError.
Proof. reflexivity. Qed.

Lemma append_entries_rows value_key item entries records :
  append_entries value_key item entries records
  = records ++ mapping_rows value_key item entries.
Proof.
  revert records.
  induction entries as [|e entries IH]; intros records; simpl.
  - by rewrite app_nil_r.
  - destruct e; simpl; rewrite IH; try done.
    by rewrite <- app_assoc.
Qed.

Section Flatten.
Variable payload : RawListingRecord -> pyval.
Variable value_key : string.

Let flatten := flatten_rows lib payload value_key.

Lemma flatten_rows_cons row rest records :
  flatten (row :: rest) records
  = safe_parse_json lib (payload row) ≫= fun parsed : pyval =>
    flatten rest
      (records ++ mapping_rows value_key (item_id row) (elements parsed)).
Proof.
  unfold flatten. simpl.
  destruct (safe_parse_json lib (payload row)) as [parsed|e]; simpl; [|done].
  destruct parsed; simpl; rewrite ?app_nil_r; try done.
  by rewrite append_entries_rows.
Qed.

Lemma flatten_rows_acc df records :
  flatten df records
  = flatten df [] ≫= fun rows : list FlatRecord => Ok (records ++ rows).
Proof.
  revert records.
  induction df as [|row rest IH]; intros records.
  - unfold flatten. simpl. by rewrite app_nil_r.
  - rewrite !flatten_rows_cons.
    destruct (safe_parse_json lib (payload row)) as [parsed|e]; simpl; [|done].
    rewrite (IH (records ++ _)), (IH (mapping_rows _ _ _)).
    destruct (flatten rest []) as [rows|e]; simpl; [|done].
    by rewrite <- app_assoc.
Qed.

Lemma flatten_rows_app df1 df2 records :
  flatten (df1 ++ df2) records
  = flatten df1 records ≫= fun rows : list FlatRecord => flatten df2 rows.
Proof.
  revert records.
  induction df1 as [|row rest IH]; intros records; [done|].
  rewrite <- app_comm_cons, !flatten_rows_cons.
  destruct (safe_parse_json lib (payload row)) as [parsed|e]; simpl; [|done].
  apply IH.
Qed.

(** The loop has no handler: what the decoder raises at a record ends
    the flattening of the whole table. *)
Lemma flatten_abort df1 row df2 e :
  safe_parse_json lib (payload row) = Raise e ->
  raises (flatten df1 []) = false ->
  flatten (df1 ++ row :: df2) [] = Raise e.
Proof.
  intros Hp H1. rewrite flatten_rows_app.
  destruct (flatten df1 []) as [rows|e']; [|done]. simpl.
  by rewrite flatten_rows_cons, Hp.
Qed.
End Flatten.

(** C9 fails on the code. A record whose history is text on which the
    parser raises anything but the two exceptions that the decoder
    catches ([json.loads] raises [RecursionError] on deeply nested text
    and a plain [ValueError] on an over-long integer), or whose history
    is an already decoded list of two or more entries, does not add zero
    rows and leave the other records alone: both flatteners raise at that
    record, whatever records come after it, and return no row at all. *)
Theorem flatten_history_aborts
    (df1 : list RawListingRecord) (row : RawListingRecord)
    (df2 : list RawListingRecord) (s : string) (e : exn) :
  json_loads lib s = Raise e -> e <> JSONDecodeError -> e <> TypeError ->
  (monthly_revenue_history row = PyStr s ->
   raises (flatten_revenue_history lib df1) = false ->
   flatten_revenue_history lib (df1 ++ row :: df2) = Raise e) /\
  (promotion_history row = PyStr s ->
   raises (flatten_promotion_history lib df1) = false ->
   flatten_promotion_history lib (df1 ++ row :: df2) = Raise e) /\
  (forall x y l, is_list x = false ->
     (monthly_revenue_history row = PyList (x :: y :: l) ->
      raises (flatten_revenue_history lib df1) = false ->
      flatten_revenue_history lib (df1 ++ row :: df2) = Raise ValueError) /\
     (promotion_history row = PyList (x :: y :: l) ->
      raises (flatten_promotion_history lib df1) = false ->
      flatten_promotion_history lib (df1 ++ row :: df2) = Raise ValueError)).
Proof.
  intros He Hj Ht. unfold flatten_revenue_history, flatten_promotion_history.
  split; [|split].
  - intros Hrow H1. apply flatten_abort; [|done].
    rewrite Hrow. by apply safe_parse_json_uncaught.
  - intros Hrow H1. apply flatten_abort; [|done].
    rewrite Hrow. by apply safe_parse_json_uncaught.
  - intros x y l Hx. split; intros Hrow H1; (apply flatten_abort; [|done]);
      rewrite Hrow; by apply safe_parse_json_long_list.
Qed.

End ListingClaims.

Lemma flatten_history_aborts_witness :
  Listing.flatten_revenue_history Samples.sample_library
    [Samples.good_record; Samples.deep_record; Samples.good_record]
  = Raise RecursionError.
Proof.
  apply (proj1 (flatten_history_aborts Samples.sample_library
                  [Samples.good_record] Samples.deep_record [Samples.good_record]
                  (Samples.nested_text 100000) RecursionError
                  ltac:(vm_compute; reflexivity)
                  ltac:(discriminate) ltac:(discriminate)));
    reflexivity.
Defined.

(** ** Deduplication and [min] *)

Section KeepFirstFacts.
Context {A K : Type} `{Countable K} (key : A -> K).

Lemma keep_first_elem seen l x :
  x ∈ keep_first key seen l -> x ∈ l /\ key x ∉ seen.
Proof.
  revert seen. induction l as [|y l IH]; intros seen; simpl.
  - by intros ?%elem_of_nil.
  - destruct (decide (key y ∈ seen)) as [Hin|Hnin].
    + intros [Hx Hs]%IH. split; [by right|done].
    + intros [->|Hx]%elem_of_cons.
      * split; [by left|done].
      * apply IH in Hx as [Hx Hs]. split; [by right|]. set_solver.
Qed.

Lemma keep_first_keys seen l k :
  k ∈ map key (keep_first key seen l) <-> k ∈ map key l /\ k ∉ seen.
Proof.
  revert seen. induction l as [|y l IH]; intros seen; simpl.
  - split; [by intros ?%elem_of_nil|by intros [?%elem_of_nil _]].
  - destruct (decide (key y ∈ seen)) as [Hin|Hnin]; simpl.
    + rewrite IH, elem_of_cons. split; [naive_solver|].
      intros [[->|Hk] Hs]; done.
    + rewrite !elem_of_cons, IH. split.
      * intros [->|[Hk Hs]]; [by split; [left|]|]. split; [by right|set_solver].
      * intros [[->|Hk] Hs]; [by left|].
        destruct (decide (k = key y)) as [->|Hne]; [by left|].
        right. split; [done|set_solver].
Qed.

Lemma keep_first_NoDup seen l : NoDup (map key (keep_first key seen l)).
Proof.
  revert seen. induction l as [|y l IH]; intros seen; simpl.
  - constructor.
  - destruct (decide (key y ∈ seen)); simpl; [apply IH|].
    constructor; [|apply IH].
    rewrite keep_first_keys. set_solver.
Qed.


Lemma NoDup_keys_filter (P : A -> Prop) `{!forall x, Decision (P x)} l :
  NoDup (map key l) -> NoDup (map key (filter P l)).
Proof.
  induction l as [|y l IH]; simpl; [done|].
  intros [Hy Hl]%NoDup_cons. rewrite filter_cons.
  destruct (decide (P y)); simpl; [|by apply IH].
  apply NoDup_cons. split; [|by apply IH].
  intros (z & Hz & [_ Hzl]%list_elem_of_filter)%list_elem_of_fmap.
  apply Hy. apply list_elem_of_fmap. by exists z.
Qed.
End KeepFirstFacts.

Lemma unique_elem {K : Type} `{Countable K} (l : list K) k :
  k ∈ unique l <-> k ∈ l.
Proof.
  unfold unique.
  pose proof (keep_first_keys (fun k : K => k) ∅ l k) as Hk.
  rewrite !map_id in Hk. rewrite Hk. set_solver.
Qed.

Lemma unique_NoDup {K : Type} `{Countable K} (l : list K) : NoDup (unique l).
Proof.
  unfold unique.
  pose proof (keep_first_NoDup (fun k : K => k) ∅ l) as Hk.
  by rewrite map_id in Hk.
Qed.

Section MinFacts.
Variable f : Z -> Z.

Let step (best d : Z) : Z :=
  if key_ltb (Some (f d)) (Some (f best)) then d else best.

Lemma fold_min_first rest : forall before best after,
  (forall d, d ∈ before -> f best < f d) ->
  (forall d, d ∈ after -> f best <= f d) ->
  exists before' n after',
    before ++ best :: after ++ rest = before' ++ n :: after' /\
    fold_left step rest best = n /\
    (forall d, d ∈ before' -> f n < f d) /\
    (forall d, d ∈ after' -> f n <= f d).
Proof.
  induction rest as [|d rest IH]; intros before best after Hb Ha; simpl.
  - exists before, best, after. by rewrite app_nil_r.
  - unfold step at 2. simpl.
    destruct (Z.ltb_spec (f d) (f best)) as [Hlt|Hge].
    + destruct (IH (before ++ best :: after) d []) as (b' & n & a' & Heq & Hn & Hb' & Ha').
      * intros e [He | [-> | He]%elem_of_cons]%elem_of_app.
        -- specialize (Hb e He). lia.
        -- done.
        -- specialize (Ha e He). lia.
      * by intros e ?%elem_of_nil.
      * exists b', n, a'. split; [|done].
        rewrite <- Heq. simpl. by rewrite <- app_assoc.
    + destruct (IH before best (after ++ [d])) as (b' & n & a' & Heq & Hn & Hb' & Ha').
      * done.
      * intros e [He | ->%list_elem_of_singleton]%elem_of_app; [by apply Ha|done].
      * exists b', n, a'. split; [|done].
        rewrite <- Heq. by rewrite <- app_assoc.
Qed.

(** [min] returns the first of the elements with the smallest key. *)
Lemma py_min_first xs :
  xs <> [] ->
  exists before n after,
    xs = before ++ n :: after /\
    py_min (fun d => Some (f d)) xs = Ok n /\
    (forall d, d ∈ before -> f n < f d) /\
    (forall d, d ∈ after -> f n <= f d).
Proof.
  destruct xs as [|x rest]; [done|]. intros _.
  destruct (fold_min_first rest [] x []) as (b & n & a & Heq & Hn & Hb & Ha).
  - by intros d ?%elem_of_nil.
  - by intros d ?%elem_of_nil.
  - exists b, n, a. split; [done|]. split; [|done].
    simpl. f_equal. exact Hn.
Qed.
End MinFacts.

Lemma col_max_spec col m :
  Dashboard.col_max col = Some m -> m ∈ col /\ forall d, d ∈ col -> d <= m.
Proof.
  destruct col as [|x rest]; [done|]. simpl. intros [= <-].
  assert (Hgen : forall l b, (fold_left Z.max l b = b \/ fold_left Z.max l b ∈ l)
                             /\ b <= fold_left Z.max l b
                             /\ forall d, d ∈ l -> d <= fold_left Z.max l b).
  { induction l as [|y l IH]; intros b; simpl.
    - split; [by left|]. split; [lia|]. by intros d ?%elem_of_nil.
    - destruct (IH (Z.max b y)) as (Hin & Hb & Hl). split; [|split].
      + destruct Hin as [Hin|Hin].
        * destruct (Z.max_spec b y) as [[_ Hm]|[_ Hm]]; rewrite Hm in *.
          -- right. rewrite Hin. by left.
          -- by left.
        * right. by right.
      + lia.
      + intros d [->|Hd]%elem_of_cons; [lia|by apply Hl]. }
  destruct (Hgen rest x) as (Hin & Hb & Hl). split.
  - destruct Hin as [->|Hin]; [by left|by right].
  - intros d [->|Hd]%elem_of_cons; [done|by apply Hl].
Qed.

(** ** The KPI engine *)

Section DashboardFacts.
Import Dashboard.

Lemma date_eqb_eq a b : date_eqb a b = true -> a = b.
Proof.
  destruct a, b; simpl; try done. intros H%Z.eqb_eq. by subst.
Qed.

Lemma in_range_dated cfg r : in_range cfg r = true -> is_Some (date r).
Proof. unfold in_range. destruct (date r); [eauto|done]. Qed.

Lemma item_dates_elem cfg raw d :
  d ∈ item_dates cfg raw <-> exists r, r ∈ item_df cfg raw /\ date r = Some d.
Proof. unfold item_dates. apply list_elem_of_omap. Qed.

Lemma item_df_keys_NoDup cfg raw : NoDup (map row_key (item_df cfg raw)).
Proof.
  unfold item_df, drop_duplicates.
  apply NoDup_keys_filter, keep_first_NoDup.
Qed.

Lemma filt_keys_NoDup cfg raw : NoDup (map row_key (filt cfg raw)).
Proof. unfold filt. apply NoDup_keys_filter, item_df_keys_NoDup. Qed.

(** On one date, distinct keys are distinct items. *)
Lemma snapshot_items_NoDup (d : option Z) (l : list CanonicalRow) :
  NoDup (map row_key l) ->
  NoDup (map item_id (filter (fun r => date_eqb (date r) d) l)).
Proof.
  induction l as [|y l IH]; simpl; [constructor|].
  intros [Hy Hl]%NoDup_cons. rewrite filter_cons.
  destruct (decide (date_eqb (date y) d)) as [Hd|Hd]; simpl; [|by apply IH].
  apply NoDup_cons. split; [|by apply IH].
  intros (z & Hz & [Hzd Hzl]%list_elem_of_filter)%list_elem_of_fmap.
  apply Hy. apply list_elem_of_fmap. exists z. split; [|done].
  unfold row_key. f_equal; [done|].
  apply Is_true_true, date_eqb_eq in Hd, Hzd. congruence.
Qed.

Lemma group_keys_elem rows k :
  k ∈ group_keys rows <-> k ∈ map item_id rows.
Proof.
  unfold group_keys.
  assert (Hp : sort_values String.leb (unique (map item_id rows))
               ≡ₚ unique (map item_id rows)) by apply sort_values_perm.
  rewrite Hp. apply unique_elem.
Qed.

Lemma group_empty k rows : k ∉ map item_id rows -> group k rows = [].
Proof.
  intros Hk. unfold group.
  induction rows as [|r rows IH]; [done|].
  rewrite filter_cons. simpl in Hk. rewrite not_elem_of_cons in Hk.
  destruct Hk as [Hne Hk].
  destruct (decide (item_id r = k)); [congruence|by apply IH].
Qed.

(** The rows of [sku_merged]. *)
Lemma sku_merged_row cfg raw ref r :
  r ∈ sku_merged cfg raw ref ->
  sku r ∈ sku_latest cfg raw /\
  revenue_4w r
  = first_valid (map revenue (group (sl_item_id (sku r)) (prev cfg raw ref))) /\
  sku_growth_pct r = item_growth (revenue_latest (sku r)) (revenue_4w r).
Proof.
  unfold sku_merged. rewrite list_elem_of_In, in_flat_map.
  intros (s & Hs%list_elem_of_In & Hr%list_elem_of_In).
  destruct (filter (fun p : string * option Q => p.1 = sl_item_id s)
              (sku_prev cfg raw ref)) as [|m ms] eqn:Hm.
  - apply list_elem_of_singleton in Hr as ->. simpl.
    split; [done|]. split; [|done].
    rewrite group_empty; [done|].
    intros Hk%group_keys_elem.
    assert (Hin : (sl_item_id s,
                   first_valid (map revenue (group (sl_item_id s) (prev cfg raw ref))))
                  ∈ filter (fun p : string * option Q => p.1 = sl_item_id s)
                      (sku_prev cfg raw ref)).
    { apply list_elem_of_filter. split; [done|].
      unfold sku_prev. apply list_elem_of_fmap. by exists (sl_item_id s). }
    rewrite Hm in Hin. by apply elem_of_nil in Hin.
  - rewrite <- Hm in Hr. clear Hm.
    apply list_elem_of_fmap in Hr as (p & -> & [Hp1 Hp]%list_elem_of_filter).
    simpl. split; [done|]. split; [|done].
    unfold sku_prev in Hp. apply list_elem_of_fmap in Hp as (k & -> & _).
    simpl in *. by subst.
Qed.

Lemma sku_latest_row cfg raw s :
  s ∈ sku_latest cfg raw ->
  revenue_latest s
  = first_valid (map revenue (group (sl_item_id s) (latest cfg raw))).
Proof.
  unfold sku_latest. intros (k & -> & _)%list_elem_of_fmap. done.
Qed.

Lemma Qltb_lt x y : Qltb x y = true <-> (x < y)%Q.
Proof.
  unfold Qltb. rewrite negb_true_iff, <- not_true_iff_false, Qle_bool_iff.
  split; [apply Qnot_le_lt|apply Qlt_not_le].
Qed.

Lemma item_growth_positive l q :
  (0 < q)%Q ->
  item_growth l (Some q) = (fun v => ((v - q) / q * 100)%Q) <$> l.
Proof.
  intros Hq%Qltb_lt. unfold item_growth. rewrite Hq. by destruct l.
Qed.

Lemma item_growth_nonpositive l q :
  (q <= 0)%Q -> item_growth l (Some q) = None.
Proof.
  intros Hq. unfold item_growth.
  destruct (Qltb 0 q) eqn:Hlt; [|done].
  apply Qltb_lt in Hlt. by apply Qlt_not_le in Hlt.
Qed.

(** The two rating tests exclude each other. *)
Lemma at_risk_excludes_scaling cfg r :
  at_risk cfg (sl_rating (sku r)) (sl_rating_count (sku r)) = true ->
  scaling cfg r = false.
Proof.
  unfold at_risk, scaling, opt_ltb, opt_geb, Qltb.
  destruct (sl_rating (sku r)) as [a|]; simpl; [|done].
  destruct (Qle_bool (rating_thresh cfg) a); simpl; [done|].
  intros _. apply andb_false_r.
Qed.


Lemma empty_window_raises cfg raw :
  date_start cfg <= date_end cfg -> item_df cfg raw = [] ->
  dashboard cfg raw = Raise ValueError.
Proof.
  intros Hd He. unfold dashboard, nearest_4w, item_dates.
  destruct (Z.ltb_spec (date_end cfg) (date_start cfg)); [lia|].
  by rewrite He.
Qed.

(** An empty latest snapshot gives zero sums and a rating that is shown
    as not available. *)
Lemma empty_snapshot_kpis cfg raw ref :
  latest cfg raw = [] -> prev cfg raw ref = [] ->
  total_rev_latest cfg raw = 0%Q /\ total_rev_4w cfg raw ref = 0%Q /\
  growth_pct cfg raw ref = 0%Q /\ rev_at_risk cfg raw = 0%Q /\
  avg_rating cfg raw = Some 0%Q /\ avg_rating_not_available cfg raw = true.
Proof.
  intros Hl Hp.
  unfold growth_pct, rev_at_risk, risky, avg_rating_not_available, avg_rating,
    total_rev_latest, total_rev_4w.
  rewrite Hl, Hp. done.
Qed.

End DashboardFacts.

Section DashboardClaims.
Import Dashboard Samples.

(** C2 fails on the code: with samples on days 30 and 56 only for the
    first item and a window from day 31 to day 40 for which no row
    exists, the filtered table is empty and the script raises
    [ValueError] at [min] instead of reporting zero and not-available
    KPIs. *)
Theorem empty_window_raises_at_min :
  item_df (default_filters 31 40 []) gap_table = [] /\
  filt (default_filters 31 40 []) gap_table = [] /\
  dashboard (default_filters 31 40 []) gap_table = Raise ValueError.
Proof. vm_compute. done. Qed.



(** C5, as stated, fails. Day 56 is the latest date, so the target is
    day 28. With no brand selected, days 26 and 30 are both two days
    from it and the later one, day 30, is chosen, because it comes first
    in the table. With the brand of the second item selected, the chosen
    day is still day 30, which is not a date of the filtered table. *)
Lemma earliest_tie_break_fails :
  (LATEST_DATE (default_filters 0 100 []) tie_table = Some 56 /\
   nearest_4w (default_filters 0 100 []) tie_table = Ok 30 /\
   Some 26 ∈ map date (filt (default_filters 0 100 []) tie_table) /\
   Z.abs (26 - (56 - 28)) = Z.abs (30 - (56 - 28)) /\ 26 < 30) /\
  (filt (default_filters 0 100 ["zenith"%string]) tie_table <> [] /\
   nearest_4w (default_filters 0 100 ["zenith"%string]) tie_table = Ok 30 /\
   Some 30 ∉ map date (filt (default_filters 0 100 ["zenith"%string]) tie_table)).
Proof.
  vm_compute. repeat split; try done.
  - do 2 right. left.
  - intros H. apply list_elem_of_singleton in H. discriminate H.
Qed.

(** C5, amended: when the deduplicated table restricted to the date
    range has a row, its latest date exists and is its greatest date, the
    reference date is one of its distinct dates and no other of them is
    nearer to the latest date minus 28 days; among the dates at that
    smallest distance it is the one that occurs first in the table: every
    distinct date before it, in order of first occurrence, is strictly
    farther. *)
Theorem reference_date_nearest_first (cfg : Filters) (raw : list CanonicalRow) :
  item_df cfg raw <> [] ->
  exists latest_date n before after,
    LATEST_DATE cfg raw = Some latest_date /\
    (latest_date ∈ item_dates cfg raw /\
     forall d, d ∈ item_dates cfg raw -> d <= latest_date) /\
    nearest_4w cfg raw = Ok n /\
    unique (item_dates cfg raw) = before ++ n :: after /\
    (exists r, r ∈ item_df cfg raw /\ date r = Some n) /\
    (forall d, d ∈ item_dates cfg raw ->
       Z.abs (n - (latest_date - 28)) <= Z.abs (d - (latest_date - 28))) /\
    (forall d, d ∈ before ->
       Z.abs (n - (latest_date - 28)) < Z.abs (d - (latest_date - 28))).
Proof.
  intros Hne.
  assert (Hdates : item_dates cfg raw <> []).
  { destruct (item_df cfg raw) as [|r rest] eqn:Hdf; [done|].
    assert (Hr : r ∈ item_df cfg raw) by (rewrite Hdf; by left).
    pose proof Hr as Hr'. unfold item_df in Hr'.
    apply list_elem_of_filter in Hr' as [Hin _].
    apply Is_true_true, in_range_dated in Hin as [d Hd].
    assert (Hdin : d ∈ item_dates cfg raw)
      by (apply item_dates_elem; exists r; split; [exact Hr|exact Hd]).
    intros Hnil. rewrite Hnil in Hdin. by apply elem_of_nil in Hdin. }
  destruct (col_max (item_dates cfg raw)) as [ld|] eqn:Hmax;
    [|by destruct (item_dates cfg raw)].
  assert (Huniq : unique (item_dates cfg raw) <> []).
  { destruct (item_dates cfg raw) as [|d rest] eqn:Hd; [done|].
    intros Hnil. assert (Hin : d ∈ unique (d :: rest))
      by (apply unique_elem; by left).
    rewrite Hnil in Hin. by apply elem_of_nil in Hin. }
  destruct (py_min_first (fun d => Z.abs (d - (ld - FOUR_WEEKS))) _ Huniq)
    as (before & n & after & Heq & Hmin & Hb & Ha).
  exists ld, n, before, after.
  split; [done|]. split; [by apply col_max_spec|].
  split.
  { unfold nearest_4w, distance, FOUR_W_AGO, LATEST_DATE.
    rewrite Hmax. exact Hmin. }
  split; [done|].
  assert (Hn : n ∈ unique (item_dates cfg raw))
    by (rewrite Heq; apply elem_of_app; right; by left).
  split; [by apply item_dates_elem, unique_elem|].
  split; [|exact Hb].
  intros d Hd%unique_elem. rewrite Heq in Hd.
  apply elem_of_app in Hd as [Hd|[->|Hd]%elem_of_cons].
  - specialize (Hb d Hd). unfold FOUR_WEEKS in Hb. lia.
  - lia.
  - specialize (Ha d Hd). unfold FOUR_WEEKS in Ha. lia.
Qed.

Lemma reference_date_nearest_first_witness :
  exists latest_date n before after,
    LATEST_DATE (default_filters 0 100 []) sample_table = Some latest_date /\
    (latest_date ∈ item_dates (default_filters 0 100 []) sample_table /\
     forall d, d ∈ item_dates (default_filters 0 100 []) sample_table ->
               d <= latest_date) /\
    nearest_4w (default_filters 0 100 []) sample_table = Ok n /\
    unique (item_dates (default_filters 0 100 []) sample_table)
    = before ++ n :: after /\
    (exists r, r ∈ item_df (default_filters 0 100 []) sample_table /\
               date r = Some n) /\
    (forall d, d ∈ item_dates (default_filters 0 100 []) sample_table ->
       Z.abs (n - (latest_date - 28)) <= Z.abs (d - (latest_date - 28))) /\
    (forall d, d ∈ before ->
       Z.abs (n - (latest_date - 28)) < Z.abs (d - (latest_date - 28))).
Proof.
  apply (reference_date_nearest_first (default_filters 0 100 []) sample_table).
  vm_compute. discriminate.
Defined.

End DashboardClaims.

Section GrowthClaims.
Import Dashboard Samples.

(** C6: for every row of the per-item table, the latest and the
    reference revenue are those of the item in the two snapshots; growth
    is (latest - reference) / reference * 100 when the reference revenue
    is present and positive (null when the latest revenue is null), and
    null when the reference revenue is absent, zero or negative; a row
    with null growth is in neither the high-scaling nor the declining
    set. *)
Theorem item_growth_null_propagation
    (cfg : Filters) (raw : list CanonicalRow) (ref : Z) (r : SkuRow) :
  r ∈ sku_merged cfg raw ref ->
  (revenue_latest (sku r)
   = first_valid (map revenue (group (sl_item_id (sku r)) (latest cfg raw))) /\
   revenue_4w r
   = first_valid (map revenue (group (sl_item_id (sku r)) (prev cfg raw ref)))) /\
  (forall q, revenue_4w r = Some q -> (0 < q)%Q ->
     sku_growth_pct r
     = (fun l => ((l - q) / q * 100)%Q) <$> revenue_latest (sku r)) /\
  (forall q, revenue_4w r = Some q -> (q <= 0)%Q -> sku_growth_pct r = None) /\
  (revenue_4w r = None -> sku_growth_pct r = None) /\
  (sku_growth_pct r = None ->
     (r ∉ high_scaling cfg raw ref) /\ (r ∉ declining cfg raw ref)).
Proof.
  intros Hr. destruct (sku_merged_row _ _ _ _ Hr) as (Hs & H4 & Hg).
  split; [split; [by apply sku_latest_row|done]|].
  split; [intros q Hq Hpos; rewrite Hg, Hq; by apply item_growth_positive|].
  split; [intros q Hq Hneg; rewrite Hg, Hq; by apply item_growth_nonpositive|].
  split; [intros Hq; by rewrite Hg, Hq|].
  intros Hnone. split.
  - unfold high_scaling. rewrite list_elem_of_filter.
    intros [Hsc _]. unfold scaling in Hsc. rewrite Hnone in Hsc. done.
  - unfold declining.
    assert (Hp : forall l, sort_values growth_leb l ≡ₚ l)
      by (intros l; apply sort_values_perm).
    rewrite Hp, list_elem_of_filter.
    intros [Hdec _]. rewrite Hnone in Hdec. done.
Qed.

Lemma item_growth_null_propagation_witness :
  sku_growth_pct sample_sku_2
  = (fun l => ((l - 50) / 50 * 100)%Q) <$> revenue_latest (sku sample_sku_2).
Proof.
  assert (Hin : sample_sku_2
                ∈ sku_merged (default_filters 0 100 []) sample_table 28)
    by (vm_compute; right; left).
  apply (proj1 (proj2 (item_growth_null_propagation _ _ _ _ Hin)) 50%Q);
    reflexivity.
Defined.

(** C10: in the single-label view, a row that meets the At-Risk test is
    labelled At Risk whatever its growth, so never High-Scaling; the two
    sets themselves are each selected by their own test alone. *)
Theorem at_risk_takes_precedence
    (cfg : Filters) (raw : list CanonicalRow) (ref : Z)
    (r : SkuRow) (l : label) :
  (r, l) ∈ risk_labels cfg raw ref ->
  at_risk cfg (sl_rating (sku r)) (sl_rating_count (sku r)) = true ->
  (l = AtRisk /\ l <> HighScaling) /\
  (forall x, x ∈ risky cfg raw <->
             x ∈ latest cfg raw /\ at_risk cfg (rating x) (rating_count x) = true) /\
  (forall y, y ∈ high_scaling cfg raw ref <->
             y ∈ sku_merged cfg raw ref /\ scaling cfg y = true).
Proof.
  intros Hl Hrisk.
  unfold risk_labels in Hl. apply list_elem_of_fmap in Hl as (y & [= -> ->] & _).
  split.
  { unfold risk_label. rewrite Hrisk. done. }
  split.
  - intros x. unfold risky. rewrite list_elem_of_filter, Is_true_true. tauto.
  - intros y0. unfold high_scaling. rewrite list_elem_of_filter, Is_true_true. tauto.
Qed.

Lemma at_risk_takes_precedence_witness :
  (sample_sku_2, AtRisk)
  ∈ risk_labels (default_filters 0 100 []) sample_table 28 /\
  AtRisk <> HighScaling.
Proof.
  assert (Hin : (sample_sku_2, AtRisk)
                ∈ risk_labels (default_filters 0 100 []) sample_table 28)
    by (vm_compute; left).
  split; [exact Hin|].
  apply (proj1 (at_risk_takes_precedence _ _ _ _ _ Hin eq_refl)).
Defined.

End GrowthClaims.

(** * Further properties *)

(** ** Decoding, page content and flattening on table cells *)

Section CellFacts.
Import Listing Cells Metadata.
Variable lib : Library.

Lemma safe_parse_json_cell (raw : pyval) :
  is_list raw = false -> safe_parse_json lib raw = decode_cell lib raw.
Proof.
  intros Hl. destruct raw; try discriminate Hl; try reflexivity.
  rewrite safe_parse_json_text. simpl.
  destruct (json_loads lib s) as [v|e]; [done|]. by destruct e.
Qed.

Lemma decode_cell_raises (raw : pyval) (e : exn) :
  decode_cell lib raw = Raise e <->
  exists s, raw = PyStr s /\ json_loads lib s = Raise e /\
            e <> JSONDecodeError /\ e <> TypeError.
Proof.
  split.
  - destruct raw; try done. simpl.
    destruct (json_loads lib s) as [v|e'] eqn:Hs; [done|].
    destruct e'; try done; intros [= <-]; exists s; done.
  - intros (s & -> & Hs & Hj & Ht). simpl. rewrite Hs. by destruct e.
Qed.

(** X1: what the decoder does on a value that is not a list. A mapping
    comes back as it is and any other value that is not text is absent;
    text comes back parsed, and is absent when the parser raises
    [JSONDecodeError]. The decoder raises on such a value exactly when it
    is text on which the parser raises something that the [except] clause
    does not name, and what it raises is what the parser raised. *)
Theorem safe_parse_json_off_lists (raw : pyval) :
  is_list raw = false ->
  ((forall s, raw <> PyStr s) ->
     safe_parse_json lib raw = Ok (if is_dict raw then raw else PyNone)) /\
  (forall s v, raw = PyStr s -> json_loads lib s = Ok v ->
     safe_parse_json lib raw = Ok v) /\
  (forall s, raw = PyStr s -> json_loads lib s = Raise JSONDecodeError ->
     safe_parse_json lib raw = Ok PyNone) /\
  (forall e, safe_parse_json lib raw = Raise e <->
     exists s, raw = PyStr s /\ json_loads lib s = Raise e /\
               e <> JSONDecodeError /\ e <> TypeError).
Proof.
  intros Hl. split; [|split; [|split]].
  - intros Hs. destruct raw; try discriminate Hl; try reflexivity.
    by destruct (Hs s).
  - intros s v -> Hs. by rewrite safe_parse_json_text, Hs.
  - intros s -> Hs. by rewrite safe_parse_json_text, Hs.
  - intros e. rewrite (safe_parse_json_cell raw Hl). apply decode_cell_raises.
Qed.

Lemma dict_get_missing kv k :
  k ∉ map fst kv -> dict_get kv k = PyNone.
Proof.
  induction kv as [|[k' v] kv IH]; simpl; [done|].
  rewrite not_elem_of_cons. intros [Hne Hk].
  destruct (String.eqb_spec k' k); [congruence|by apply IH].
Qed.

Lemma extract_page_content_fields_raises (raw : pyval) :
  raises (extract_page_content_fields lib raw)
  = raises (safe_parse_json lib raw).
Proof.
  unfold extract_page_content_fields.
  destruct (safe_parse_json lib raw) as [v|e]; simpl; [|done].
  by destruct (is_none v || negb (is_dict v)).
Qed.

(** X2: on a cell that is not a list, [extract_page_content_fields]
    raises exactly what the decoder raises on it. When the cell decodes to
    anything but a mapping all five fields are None; when it decodes to a
    mapping, each field is the value under its key, and None when the
    document has no such key. *)
Theorem extract_page_content_fields_on_cells (raw : pyval) :
  is_list raw = false ->
  (forall e, extract_page_content_fields lib raw = Raise e <->
             decode_cell lib raw = Raise e) /\
  (forall v, decode_cell lib raw = Ok v ->
     exists fields,
       extract_page_content_fields lib raw = Ok fields /\
       (is_dict v = false ->
          fields = {| title := PyNone; category := PyNone; vertical := PyNone;
                      subCategory := PyNone; superCategory := PyNone |}) /\
       (forall kv, v = PyDict kv ->
          fields = {| title := dict_get kv "title";
                      category := dict_get kv "category";
                      vertical := dict_get kv "vertical";
                      subCategory := dict_get kv "subCategory";
                      superCategory := dict_get kv "superCategory" |} /\
          forall k, k ∉ map fst kv -> dict_get kv k = PyNone)).
Proof.
  intros Hl. unfold extract_page_content_fields.
  rewrite (safe_parse_json_cell raw Hl). split.
  - intros e. destruct (decode_cell lib raw) as [v|e']; simpl.
    + destruct (is_none v || negb (is_dict v)); split; intros H; discriminate H.
    + split; intros [= ->]; reflexivity.
  - intros v ->. simpl.
    destruct v as [| | | | | | |kv]; simpl;
      eexists; (split; [reflexivity|]); (split; [try done|]);
      try (intros kv' Hkv; discriminate Hkv).
    intros kv' [= <-]. split; [done|]. apply dict_get_missing.
Qed.

Section FlattenCells.
Variable payload : RawListingRecord -> pyval.
Variable value_key : string.

Lemma mapping_rows_elements item (v : pyval) :
  mapping_rows value_key item (elements v) = history_rows value_key item (Ok v).
Proof. by destruct v. Qed.

Lemma flatten_rows_cells df records :
  Forall (fun row => is_list (payload row) = false) df ->
  Forall (fun row => raises (decode_cell lib (payload row)) = false) df ->
  flatten_rows lib payload value_key df records
  = Ok (records
        ++ concat (map (fun row =>
                          history_rows value_key (Listing.item_id row)
                            (decode_cell lib (payload row)))
                       df)).
Proof.
  intros Hdf Hok. revert records.
  induction Hdf as [|row df Hrow Hdf IH]; intros records.
  - simpl. by rewrite app_nil_r.
  - apply Forall_cons in Hok as [Hok1 Hok2].
    rewrite flatten_rows_cons, (safe_parse_json_cell _ Hrow).
    destruct (decode_cell lib (payload row)) as [v|e] eqn:Hd; [|done]. simpl.
    rewrite (IH Hok2), mapping_rows_elements, Hd. by rewrite <- app_assoc.
Qed.

Lemma flatten_rows_cells_abort df1 row df2 e :
  Forall (fun row => is_list (payload row) = false) (df1 ++ row :: df2) ->
  Forall (fun row => raises (decode_cell lib (payload row)) = false) df1 ->
  decode_cell lib (payload row) = Raise e ->
  flatten_rows lib payload value_key (df1 ++ row :: df2) [] = Raise e.
Proof.
  intros Hdf Hok He.
  apply Forall_app in Hdf as [Hdf1 [Hrow _]%Forall_cons].
  apply flatten_abort.
  - by rewrite (safe_parse_json_cell _ Hrow).
  - by rewrite (flatten_rows_cells df1 [] Hdf1 Hok).
Qed.
End FlattenCells.

(** X3: the flatteners on a table whose history cells are not lists
    (text or null, as read from a CSV file). When every cell decodes
    without raising, each flattener collects, in the order of the table,
    the records of every listing: one per mapping of its decoded history,
    none when it decodes to anything but a list. When a cell makes the
    decoder raise, the flattener raises the same exception at the first
    such listing and collects nothing. *)
Theorem flatten_history_on_cells (df : list RawListingRecord) :
  Forall (fun row => is_list (monthly_revenue_history row) = false
                     /\ is_list (promotion_history row) = false) df ->
  (Forall (fun row =>
             raises (decode_cell lib (monthly_revenue_history row)) = false) df ->
   flatten_revenue_history lib df
   = Ok (concat (map (fun row =>
                        history_rows "avg_monthly_revenue" (Listing.item_id row)
                          (decode_cell lib (monthly_revenue_history row)))
                     df))) /\
  (Forall (fun row =>
             raises (decode_cell lib (promotion_history row)) = false) df ->
   flatten_promotion_history lib df
   = Ok (concat (map (fun row =>
                        history_rows "value" (Listing.item_id row)
                          (decode_cell lib (promotion_history row)))
                     df))) /\
  (forall df1 row df2 e, df = df1 ++ row :: df2 ->
     Forall (fun row =>
               raises (decode_cell lib (monthly_revenue_history row)) = false) df1 ->
     decode_cell lib (monthly_revenue_history row) = Raise e ->
     flatten_revenue_history lib df = Raise e) /\
  (forall df1 row df2 e, df = df1 ++ row :: df2 ->
     Forall (fun row =>
               raises (decode_cell lib (promotion_history row)) = false) df1 ->
     decode_cell lib (promotion_history row) = Raise e ->
     flatten_promotion_history lib df = Raise e).
Proof.
  intros Hdf. unfold flatten_revenue_history, flatten_promotion_history.
  assert (H1 : Forall (fun row => is_list (monthly_revenue_history row) = false) df)
    by (eapply Forall_impl; [exact Hdf|]; by intros row [? _]).
  assert (H2 : Forall (fun row => is_list (promotion_history row) = false) df)
    by (eapply Forall_impl; [exact Hdf|]; by intros row [_ ?]).
  split; [|split; [|split]].
  - intros Hok. by rewrite flatten_rows_cells.
  - intros Hok. by rewrite flatten_rows_cells.
  - intros df1 row df2 e -> Hok He. by apply flatten_rows_cells_abort.
  - intros df1 row df2 e -> Hok He. by apply flatten_rows_cells_abort.
Qed.

End CellFacts.

Lemma safe_parse_json_off_lists_witness :
  Listing.safe_parse_json Samples.sample_library (Listing.PyStr "7")
  = Ok (Listing.PyInt 7) /\
  Listing.safe_parse_json Samples.sample_library
    (Listing.PyStr (Samples.nested_text 100000))
  = Raise RecursionError.
Proof.
  split.
  - apply (proj1 (proj2 (safe_parse_json_off_lists Samples.sample_library
                           (Listing.PyStr "7") eq_refl)) "7"%string);
      reflexivity.
  - apply (proj2 (proj2 (proj2 (safe_parse_json_off_lists Samples.sample_library
                                  (Listing.PyStr (Samples.nested_text 100000))
                                  eq_refl)))).
    exists (Samples.nested_text 100000).
    split; [reflexivity|]. split; [vm_compute; reflexivity|].
    split; discriminate.
Defined.

Lemma extract_page_content_fields_on_cells_witness :
  exists fields,
    Metadata.extract_page_content_fields Samples.sample_library
      (Listing.PyStr "oops")
    = Ok fields.
Proof.
  destruct (proj2 (extract_page_content_fields_on_cells Samples.sample_library
                     (Listing.PyStr "oops") eq_refl)
              Listing.PyNone ltac:(vm_compute; reflexivity))
    as (fields & Hf & _).
  exists fields. exact Hf.
Defined.

Lemma flatten_history_on_cells_witness :
  Listing.flatten_revenue_history Samples.sample_library
    [Samples.good_record; Samples.bad_record]
  = Ok [ {| Listing.fr_item_id := Listing.PyStr "sku-1";
            Listing.fr_date := Listing.PyNone;
            Listing.fr_value := Listing.PyNone |} ].
Proof.
  apply (proj1 (flatten_history_on_cells Samples.sample_library
                  [Samples.good_record; Samples.bad_record]
                  ltac:(repeat constructor))).
  repeat constructor.
Defined.

(** ** Deduplication keeps first rows *)

Section FirstWins.
Context {A K : Type} `{Countable K} (key : A -> K).

Lemma keep_first_first seen l x :
  x ∈ keep_first key seen l <->
  exists pre post,
    l = pre ++ x :: post /\ (key x ∉ seen) /\ (key x ∉ map key pre).
Proof.
  revert seen. induction l as [|y l IH]; intros seen; simpl.
  - split; [by intros ?%elem_of_nil|].
    intros (pre & post & Heq & _). by destruct pre.
  - destruct (decide (key y ∈ seen)) as [Hin|Hnin].
    + rewrite IH. split.
      * intros (pre & post & -> & Hs & Hp).
        exists (y :: pre), post. split; [done|]. split; [done|].
        simpl. rewrite not_elem_of_cons. split; [|done]. congruence.
      * intros (pre & post & Heq & Hs & Hp).
        destruct pre as [|z pre]; simpl in *.
        -- injection Heq as -> ->. done.
        -- injection Heq as -> ->. rewrite not_elem_of_cons in Hp.
           exists pre, post. split; [done|]. split; [done|]. apply Hp.
    + rewrite elem_of_cons, IH. split.
      * intros [->|(pre & post & -> & Hs & Hp)].
        -- exists [], l. split; [done|]. split; [done|]. apply not_elem_of_nil.
        -- exists (y :: pre), post. split; [done|].
           split; [set_solver|]. simpl. rewrite not_elem_of_cons.
           split; [set_solver|done].
      * intros (pre & post & Heq & Hs & Hp).
        destruct pre as [|z pre]; simpl in *.
        -- injection Heq as -> ->. by left.
        -- injection Heq as -> ->. rewrite not_elem_of_cons in Hp.
           right. exists pre, post. split; [done|].
           split; [set_solver|apply Hp].
  Qed.

Lemma keep_first_sublist seen l : sublist (keep_first key seen l) l.
Proof.
  revert seen. induction l as [|y l IH]; intros seen; simpl; [done|].
  destruct (decide (key y ∈ seen)).
  - by apply sublist_cons.
  - by apply sublist_skip.
Qed.

Lemma keep_first_id seen l :
  NoDup (map key l) -> (forall x, x ∈ l -> key x ∉ seen) ->
  keep_first key seen l = l.
Proof.
  revert seen. induction l as [|y l IH]; intros seen Hnd Hs; simpl; [done|].
  apply NoDup_cons in Hnd as [Hy Hnd].
  destruct (decide (key y ∈ seen)) as [Hin|Hnin].
  - exfalso. eapply Hs; [by left|done].
  - f_equal. apply IH; [done|].
    intros x Hx. rewrite not_elem_of_union, not_elem_of_singleton.
    split; [|apply Hs; by right].
    intros Heq. apply Hy. rewrite <- Heq. apply list_elem_of_fmap. by exists x.
Qed.
End FirstWins.

Section DropDuplicates.
Import Dashboard.

(** X4: [drop_duplicates] keeps a row exactly when no earlier row of the
    table has its (item, date); the kept rows stand in the order of the
    table, no (item, date) occurs twice among them, and a second pass
    changes nothing. *)
Theorem drop_duplicates_first_wins (raw : list CanonicalRow) :
  (forall x, x ∈ drop_duplicates raw <->
     exists pre post, raw = pre ++ x :: post /\ row_key x ∉ map row_key pre) /\
  sublist (drop_duplicates raw) raw /\
  NoDup (map row_key (drop_duplicates raw)) /\
  drop_duplicates (drop_duplicates raw) = drop_duplicates raw.
Proof.
  unfold drop_duplicates. split; [|split; [|split]].
  - intros x. rewrite keep_first_first. split.
    + intros (pre & post & Heq & _ & Hp). by exists pre, post.
    + intros (pre & post & Heq & Hp). exists pre, post.
      split; [done|]. split; [set_solver|done].
  - apply keep_first_sublist.
  - apply keep_first_NoDup.
  - apply keep_first_id; [apply keep_first_NoDup|set_solver].
Qed.

End DropDuplicates.

(** ** More on the merge and the forward fill *)

Section SortedFacts.
Context {A : Type} (leb : A -> A -> bool).

Lemma sort_values_sorted_id l :
  StronglySorted (fun x y => leb x y = true) l -> sort_values leb l = l.
Proof.
  induction 1 as [|x l Hs IH Hx]; simpl; [done|].
  rewrite IH. by apply insert_row_least.
Qed.

Lemma StronglySorted_by_key {B : Type} (g : B -> A) (l : list B) :
  StronglySorted (fun x y => leb (g x) (g y) = true) l <->
  StronglySorted (fun x y => leb x y = true) (map g l).
Proof.
  induction l as [|x l IH]; simpl.
  - split; constructor.
  - rewrite !StronglySorted_cons, IH, Forall_fmap. done.
Qed.
End SortedFacts.

Section MergeFacts.
Import Reconcile Joins.

Lemma matches_elem l pr p :
  p ∈ matches l pr <-> p ∈ pr /\ series_key p = series_key l.
Proof. unfold matches. rewrite list_elem_of_filter. tauto. Qed.

Lemma matches_nil l pr :
  matches l pr = [] <-> series_key l ∉ map series_key pr.
Proof.
  split.
  - intros Hm (p & Hk & Hp)%list_elem_of_fmap.
    assert (Hin : p ∈ matches l pr) by (by apply matches_elem).
    rewrite Hm in Hin. by apply elem_of_nil in Hin.
  - intros Hk. destruct (matches l pr) as [|p ps] eqn:Hm; [done|].
    exfalso. apply Hk.
    assert (Hin : p ∈ matches l pr) by (rewrite Hm; by left).
    apply matches_elem in Hin as [Hin Heq].
    apply list_elem_of_fmap. by exists p.
Qed.

Lemma matches_unique l pr p :
  NoDup (map series_key pr) -> p ∈ pr -> series_key p = series_key l ->
  matches l pr = [p].
Proof.
  unfold matches. induction pr as [|q pr IH]; simpl.
  - by intros _ ?%elem_of_nil.
  - intros [Hq Hnd]%NoDup_cons Hp Hk. rewrite filter_cons.
    apply elem_of_cons in Hp as [->|Hp].
    + destruct (decide (series_key q = series_key l)); [|done].
      f_equal. destruct (filter _ pr) as [|z zs] eqn:Hf; [done|].
      exfalso. apply Hq.
      assert (Hz : z ∈ filter (fun r => series_key r = series_key l) pr)
        by (rewrite Hf; by left).
      apply list_elem_of_filter in Hz as [Hzk Hz].
      apply list_elem_of_fmap. exists z. split; [congruence|done].
    + destruct (decide (series_key q = series_key l)) as [Heq|Hne].
      * exfalso. apply Hq. apply list_elem_of_fmap. exists p.
        split; [congruence|done].
      * by apply IH.
Qed.

Lemma merge_left_joined rev pr m :
  merge_left rev pr = Ok m -> m = flat_map (joined pr) rev.
Proof.
  unfold merge_left. destruct rev as [|l0 ls]; [done|].
  destruct pr as [|p0 ps]; [done|]. by intros [= <-].
Qed.

Lemma joined_elem pr l row :
  row ∈ joined pr l <->
  (exists p, p ∈ pr /\ series_key p = series_key l /\
             row = join_row l (s_value p)) \/
  ((series_key l ∉ map series_key pr) /\ row = join_row l None).
Proof.
  unfold joined. destruct (matches l pr) as [|q qs] eqn:Hm.
  - rewrite list_elem_of_singleton. split.
    + intros ->. right. split; [by apply matches_nil|done].
    + intros [(p & Hp & Hk & _)|[_ ->]]; [|done].
      assert (Hin : p ∈ matches l pr) by (by apply matches_elem).
      rewrite Hm in Hin. by apply elem_of_nil in Hin.
  - rewrite <- Hm, list_elem_of_fmap. split.
    + intros (p & -> & [Hp Hk]%matches_elem). left. by exists p.
    + intros [(p & Hp & Hk & ->)|[Hn _]].
      * exists p. split; [done|]. by apply matches_elem.
      * apply matches_nil in Hn. rewrite Hn in Hm. done.
Qed.

Lemma joined_length pr l :
  length (joined pr l) = Nat.max 1 (length (matches l pr)).
Proof.
  unfold joined. destruct (matches l pr) as [|q qs]; [done|].
  rewrite length_map. simpl. lia.
Qed.

(** X5: what the left merge of step 6 returns. Its rows are exactly the
    pairs of a revenue row and a price row with the same (item, date),
    and the revenue rows without such a price row, with a null price; a
    revenue row is therefore repeated once per price row of its key, and
    the number of rows is the sum, over the revenue rows, of the number of
    their matches, counted as one when there is none. *)
Theorem merge_left_rows (revenue_df promotion_df : list SeriesRow)
    (merged_df : list MergedRow) :
  merge_left revenue_df promotion_df = Ok merged_df ->
  (forall row, row ∈ merged_df <->
     exists l, l ∈ revenue_df /\
       ((exists p, p ∈ promotion_df /\ series_key p = series_key l /\
                   row = join_row l (s_value p)) \/
        ((series_key l ∉ map series_key promotion_df) /\
         row = join_row l None))) /\
  length merged_df
  = sum_list (map (fun l => Nat.max 1 (length (matches l promotion_df)))
                revenue_df).
Proof.
  intros ->%merge_left_joined. split.
  - intros row. rewrite list_elem_of_In, in_flat_map. split.
    + intros (l & Hl%list_elem_of_In & Hr%list_elem_of_In).
      exists l. split; [done|]. by apply joined_elem.
    + intros (l & Hl & Hr). exists l.
      split; [by apply list_elem_of_In|]. by apply list_elem_of_In, joined_elem.
  - induction revenue_df as [|l rev IH]; simpl; [done|].
    by rewrite length_app, joined_length, IH.
Qed.

(** X6: when no (item, date) occurs twice in the price series, the merge
    returns the revenue rows one for one and in their order, each with
    the price of the only price row of its key, or a null price. *)
Theorem merge_left_unique_prices (revenue_df promotion_df : list SeriesRow) :
  revenue_df <> [] -> promotion_df <> [] ->
  NoDup (map series_key promotion_df) ->
  merge_left revenue_df promotion_df
  = Ok (map (fun l => join_row l (head (matches l promotion_df) ≫= s_value))
          revenue_df) /\
  (forall l p, p ∈ promotion_df -> series_key p = series_key l ->
     matches l promotion_df = [p]).
Proof.
  intros Hr Hp Hnd. split.
  - destruct (merge_left revenue_df promotion_df) as [m|e] eqn:Hm.
    + f_equal. apply merge_left_joined in Hm as ->.
      clear Hr. induction revenue_df as [|l rev IH]; simpl; [done|].
      rewrite IH. f_equal. unfold joined.
      destruct (matches l promotion_df) as [|q qs] eqn:Hq; [done|].
      assert (Hin : q ∈ matches l promotion_df) by (rewrite Hq; by left).
      apply matches_elem in Hin as [Hin Hk].
      rewrite (matches_unique l promotion_df q Hnd Hin Hk) in Hq.
      by injection Hq as <-.
    + unfold merge_left in Hm.
      destruct revenue_df; [done|]. destruct promotion_df; done.
  - intros l p Hin Hk. by apply matches_unique.
Qed.

Lemma sort_values_length {A : Type} (leb : A -> A -> bool) (l : list A) :
  length (sort_values leb l) = length l.
Proof.
  assert (Hp : sort_values leb l ≡ₚ l) by apply sort_values_perm.
  by rewrite Hp.
Qed.

(** X7: the reconciler raises exactly when one of the two series has no
    row, and what it raises then is [KeyError]; when it returns, its table
    has at least one row per revenue row. *)
Theorem reconcile_raises_iff_empty (revenue_df promotion_df : list SeriesRow) :
  (reconcile revenue_df promotion_df = Raise KeyError <->
   revenue_df = [] \/ promotion_df = []) /\
  (raises (reconcile revenue_df promotion_df) = true ->
   reconcile revenue_df promotion_df = Raise KeyError) /\
  (forall out, reconcile revenue_df promotion_df = Ok out ->
     (length revenue_df <= length out)%nat).
Proof.
  split; [|split].
  - unfold reconcile, merge_left. split.
    + intros Hr. destruct revenue_df as [|l ls]; [by left|].
      destruct promotion_df as [|p ps]; [by right|]. discriminate Hr.
    + intros [-> | ->]; [done|]. by destruct revenue_df.
  - unfold reconcile, merge_left.
    by destruct revenue_df as [|l ls], promotion_df as [|p ps].
  - intros out. unfold reconcile.
    destruct (merge_left revenue_df promotion_df) as [m|e] eqn:Hm; [|done].
    simpl. intros [= <-].
    unfold forward_fill, groupby_ffill.
    rewrite ffill_from_length, sort_values_length.
    apply merge_left_joined in Hm as ->.
    clear. induction revenue_df as [|l rev IH]; simpl; [done|].
    rewrite length_app, joined_length. lia.
Qed.

Lemma ffill_from_idem last rows :
  ffill_from last (ffill_from last rows) = ffill_from last rows.
Proof.
  revert last. induction rows as [|r rows IH]; intros last; simpl; [done|].
  destruct (m_price r) as [p|] eqn:Hp; simpl.
  - rewrite Hp. by rewrite IH.
  - destruct (last !! m_item r) as [q|] eqn:Hq; simpl.
    + rewrite insert_id by done. by rewrite IH.
    + by rewrite IH.
Qed.

Lemma forward_fill_sorted merged_df :
  StronglySorted (fun r1 r2 => merged_leb r1 r2 = true) (forward_fill merged_df).
Proof.
  unfold forward_fill, groupby_ffill, merged_leb.
  apply (StronglySorted_by_key key_leb merged_key).
  rewrite ffill_from_keys.
  apply (StronglySorted_by_key key_leb merged_key).
  apply (sort_values_sorted merged_leb merged_leb_total merged_leb_trans).
Qed.

(** X8: step 7 is idempotent, and its result is in ascending order of
    item and date: sorting and filling a table that has been sorted and
    filled gives it back. *)
Theorem forward_fill_idempotent (merged_df : list MergedRow) :
  forward_fill (forward_fill merged_df) = forward_fill merged_df /\
  StronglySorted (fun r1 r2 => merged_leb r1 r2 = true) (forward_fill merged_df).
Proof.
  split; [|apply forward_fill_sorted].
  unfold forward_fill at 1.
  rewrite sort_values_sorted_id by apply forward_fill_sorted.
  unfold forward_fill, groupby_ffill. apply ffill_from_idem.
Qed.

Lemma ffill_from_known last a rows x :
  is_Some (last !! a) -> x ∈ ffill_from last rows -> m_item x = a ->
  is_Some (m_price x).
Proof.
  revert last. induction rows as [|r rows IH]; intros last Hl; simpl.
  - by intros ?%elem_of_nil.
  - destruct (m_price r) as [p|] eqn:Hp.
    + intros [->|Hx]%elem_of_cons Ha; [by rewrite Hp|].
      eapply IH; [|exact Hx|exact Ha].
      destruct (decide (m_item r = a)) as [->|Hne].
      * rewrite lookup_insert_eq. eauto.
      * by rewrite lookup_insert_ne.
    + intros [->|Hx]%elem_of_cons Ha; simpl in *.
      * by rewrite Ha.
      * by eapply IH.
Qed.

Lemma ffill_from_no_gap last rows o1 x tail :
  ffill_from last rows = o1 ++ x :: tail -> is_Some (m_price x) ->
  forall y, y ∈ tail -> m_item y = m_item x -> is_Some (m_price y).
Proof.
  revert last o1. induction rows as [|r rows IH]; intros last o1; simpl.
  - intros Heq. by destruct o1.
  - destruct (m_price r) as [p|] eqn:Hp.
    + destruct o1 as [|z o1]; simpl.
      * intros [= <- <-] _ y Hy Hi.
        eapply ffill_from_known; [|exact Hy|exact Hi].
        rewrite lookup_insert_eq. eauto.
      * intros [= _ Heq]. by eapply IH.
    + destruct o1 as [|z o1]; simpl.
      * intros [= <- <-] Hx y Hy Hi. simpl in *.
        eapply ffill_from_known; [exact Hx|exact Hy|exact Hi].
      * intros [= _ Heq]. by eapply IH.
Qed.

(** X9: after step 7 an item has no gap behind its first price: a row
    that comes after a priced row of the same item is priced. *)
Theorem forward_fill_no_gap (merged_df : list MergedRow)
    (before : list MergedRow) (x : MergedRow) (after : list MergedRow)
    (y : MergedRow) :
  forward_fill merged_df = before ++ x :: after ->
  is_Some (m_price x) -> y ∈ after -> m_item y = m_item x ->
  is_Some (m_price y).
Proof.
  unfold forward_fill, groupby_ffill. intros Heq Hx Hy Hi.
  by eapply ffill_from_no_gap.
Qed.

End MergeFacts.

(** ** Where the filled prices come from *)

Section FillSources.
Import Reconcile Joins Samples.






End FillSources.

(** ** Metadata and the final table *)

Section MergeOnFacts.
Import Metadata.
Context {L R K : Type} `{EqDecision K} (lkey : L -> K) (rkey : R -> K).

Lemma filter_key_unique (right : list R) (r : R) (k : K) :
  NoDup (map rkey right) -> r ∈ right -> rkey r = k ->
  filter (fun r' => rkey r' = k) right = [r].
Proof.
  induction right as [|q right IH]; simpl.
  - by intros _ ?%elem_of_nil.
  - intros [Hq Hnd]%NoDup_cons Hr Hk. rewrite filter_cons.
    apply elem_of_cons in Hr as [->|Hr].
    + destruct (decide (rkey q = k)); [|done].
      f_equal. destruct (filter _ right) as [|z zs] eqn:Hf; [done|].
      exfalso. apply Hq.
      assert (Hz : z ∈ filter (fun r' => rkey r' = k) right)
        by (rewrite Hf; by left).
      apply list_elem_of_filter in Hz as [Hzk Hz].
      apply list_elem_of_fmap. exists z. split; [congruence|done].
    + destruct (decide (rkey q = k)) as [Heq|Hne].
      * exfalso. apply Hq. apply list_elem_of_fmap. exists r.
        split; [congruence|done].
      * by apply IH.
Qed.

Lemma filter_key_short (right : list R) (k : K) :
  NoDup (map rkey right) ->
  filter (fun r' => rkey r' = k) right
  = option_list (head (filter (fun r' => rkey r' = k) right)).
Proof.
  intros Hnd.
  destruct (filter (fun r' => rkey r' = k) right) as [|z zs] eqn:Hf; [done|].
  assert (Hz : z ∈ filter (fun r' => rkey r' = k) right)
    by (rewrite Hf; by left).
  apply list_elem_of_filter in Hz as [Hzk Hz].
  rewrite (filter_key_unique right z k Hnd Hz Hzk) in Hf.
  by injection Hf as <-.
Qed.

Lemma merge_on_cons (l : L) (left : list L) (right : list R) :
  merge_on lkey rkey (l :: left) right
  = match filter (fun r => rkey r = lkey l) right with
    | [] => [(l, None)]
    | ms => map (fun r => (l, Some r)) ms
    end ++ merge_on lkey rkey left right.
Proof. reflexivity. Qed.

(** With distinct keys on the right a left merge keeps the left rows one
    for one. *)
Lemma merge_on_unique (left : list L) (right : list R) :
  NoDup (map rkey right) ->
  merge_on lkey rkey left right
  = map (fun l => (l, head (filter (fun r => rkey r = lkey l) right))) left.
Proof.
  intros Hnd.
  induction left as [|l left IH]; [done|].
  rewrite merge_on_cons, IH.
  pose proof (filter_key_short right (lkey l) Hnd) as Hs.
  simpl. destruct (filter (fun r => rkey r = lkey l) right) as [|z zs];
    simpl in *; [done|].
  by injection Hs as ->.
Qed.
End MergeOnFacts.

Section KeepFirstPairs.
Context {A B K : Type} `{Countable K} (ka : A -> K) (kb : B -> K).
Context (P : A -> B -> Prop).

Lemma keep_first_Forall2 seen l k :
  Forall2 (fun a b => ka a = kb b /\ P a b) l k ->
  Forall2 (fun a b => ka a = kb b /\ P a b)
    (keep_first ka seen l) (keep_first kb seen k).
Proof.
  intros HF. revert seen.
  induction HF as [|a b l k [Hk Hab] HF IH]; intros seen; simpl; [constructor|].
  rewrite <- Hk. destruct (decide (ka a ∈ seen)); [apply IH|].
  constructor; [done|apply IH].
Qed.
End KeepFirstPairs.

Section MetadataFacts.
Import Listing Reconcile Metadata Joins.
Variable lib : Library.

Let extracted (row : ListingRow) (c : ContentRow) : Prop :=
  extract_page_content_fields lib (page_content row) = Ok (c_fields c).

Lemma extract_column_rows df rows :
  extract_column lib df = Ok rows ->
  Forall2 (fun row c => item_id row = c_item_id c /\ extracted row c) df rows.
Proof.
  revert rows. induction df as [|row df IH]; intros rows; simpl.
  - intros [= <-]. constructor.
  - destruct (extract_page_content_fields lib (page_content row))
      as [fields|e] eqn:Hf; simpl; [|done].
    destruct (extract_column lib df) as [rest|e]; simpl; [|done].
    intros [= <-]. constructor; [|by apply IH]. done.
Qed.

Lemma extract_column_raises df :
  raises (extract_column lib df) = false <->
  Forall (fun row =>
            raises (extract_page_content_fields lib (page_content row)) = false)
    df.
Proof.
  induction df as [|row df IH]; simpl; [by split|].
  rewrite Forall_cons, <- IH.
  destruct (extract_page_content_fields lib (page_content row)) as [fields|e];
    simpl; [|by split; [|intros [? _]]].
  destruct (extract_column lib df) as [rows|e]; simpl; by split; [|intros [_ ?]].
Qed.

Lemma page_content_df_rows df items :
  page_content_df lib df = Ok items ->
  exists rows,
    df <> [] /\
    Forall2 (fun row c => item_id row = c_item_id c /\ extracted row c)
      (metadata_df df) rows /\
    items = map (fun c => {| i_content := c;
                             i_metadata :=
                               head (filter (fun x => item_id x = c_item_id c)
                                       (metadata_df df)) |})
              rows.
Proof.
  unfold page_content_df.
  destruct (extract_column lib df) as [rows|e] eqn:He; simpl; [|done].
  destruct df as [|row0 df0] eqn:Hdf; [done|]. rewrite <- Hdf in *.
  intros [= <-]. exists (keep_first c_item_id ∅ rows).
  split; [by rewrite Hdf|]. split.
  - unfold metadata_df. apply keep_first_Forall2. by apply extract_column_rows.
  - rewrite merge_on_unique by apply keep_first_NoDup.
    rewrite <- list_fmap_compose. done.
Qed.

Lemma page_content_df_items df items :
  page_content_df lib df = Ok items ->
  NoDup (map i_item_id items) /\
  (forall k, k ∈ map i_item_id items <-> k ∈ map item_id df) /\
  (forall i, i ∈ items ->
     exists pre x post,
       df = pre ++ x :: post /\ item_id x = i_item_id i /\
       (i_item_id i ∉ map item_id pre) /\
       i_metadata i = Some x /\
       extract_page_content_fields lib (page_content x)
       = Ok (c_fields (i_content i))).
Proof.
  intros (rows & Hne & HF & ->)%page_content_df_rows.
  assert (Hkeys : map item_id (metadata_df df) = map c_item_id rows).
  { clear -HF. induction HF as [|x c l k [Hk _] _ IH]; simpl; [done|].
    by rewrite Hk, IH. }
  assert (Hids : map i_item_id
                   (map (fun c => {| i_content := c;
                                     i_metadata :=
                                       head (filter (fun x => item_id x = c_item_id c)
                                               (metadata_df df)) |}) rows)
                 = map c_item_id rows).
  { rewrite <- list_fmap_compose. done. }
  split; [|split].
  - rewrite Hids, <- Hkeys. apply keep_first_NoDup.
  - intros k. rewrite Hids, <- Hkeys. unfold metadata_df.
    rewrite keep_first_keys. set_solver.
  - intros i (c & -> & Hc)%list_elem_of_fmap. simpl.
    apply list_elem_of_lookup in Hc as [n Hn].
    destruct (Forall2_lookup_r _ _ _ _ _ HF Hn) as (x & Hx & Hk & Hex).
    assert (Hxin : x ∈ metadata_df df) by (apply list_elem_of_lookup; eauto).
    pose proof Hxin as Hfirst. unfold metadata_df in Hfirst.
    apply keep_first_first in Hfirst as (pre & post & Hdf & _ & Hpre).
    exists pre, x, post. unfold i_item_id. simpl.
    split; [done|]. split; [done|]. split; [by rewrite <- Hk|].
    split; [|done].
    rewrite (filter_key_unique item_id (metadata_df df) x (c_item_id c));
      [done| |done|done].
    apply keep_first_NoDup.
Qed.

(** X10: the item table of step 2 has exactly one row per item identifier
    of the raw table. Its content fields and its metadata are those of the
    first raw row of that item, whatever later rows of the item say. An
    empty raw table raises [KeyError]; a table with rows raises exactly
    when [extract_page_content_fields] raises on one of its content
    cells. *)
Theorem page_content_df_first_row_per_item (df : list ListingRow) :
  (df = [] -> page_content_df lib df = Raise KeyError) /\
  (df <> [] ->
   (raises (page_content_df lib df) = false <->
    Forall (fun row =>
              raises (extract_page_content_fields lib (page_content row)) = false)
      df)) /\
  (forall items, page_content_df lib df = Ok items ->
     NoDup (map i_item_id items) /\
     (forall k, k ∈ map i_item_id items <-> k ∈ map item_id df) /\
     (forall i, i ∈ items ->
        exists pre x post,
          df = pre ++ x :: post /\ item_id x = i_item_id i /\
          (i_item_id i ∉ map item_id pre) /\
          i_metadata i = Some x /\
          extract_page_content_fields lib (page_content x)
          = Ok (c_fields (i_content i)))).
Proof.
  split; [by intros ->|]. split.
  { intros Hne. rewrite <- extract_column_raises. unfold page_content_df.
    destruct (extract_column lib df) as [rows|e]; simpl; [|done].
    by destruct df. }
  apply page_content_df_items.
Qed.

Lemma final_key_row m o : final_key (final_row (m, o)) = merged_key m.
Proof. by destruct o. Qed.

Lemma final_df_sorted merged_df items :
  StronglySorted (fun r1 r2 => final_leb r1 r2 = true) (final_df merged_df items).
Proof.
  unfold final_df.
  apply (sort_values_sorted final_leb); unfold final_leb.
  - intros x y. apply key_leb_total.
  - intros x y z. apply key_leb_trans.
Qed.

Lemma final_rows_sorted merged_df items :
  StronglySorted (fun r1 r2 => merged_leb r1 r2 = true) merged_df ->
  StronglySorted (fun r1 r2 => final_leb r1 r2 = true)
    (map (fun m => final_row (m, joined_item items m)) merged_df).
Proof.
  intros Hs. unfold final_leb, merged_leb in *.
  apply (StronglySorted_by_key key_leb final_key).
  apply (StronglySorted_by_key key_leb merged_key) in Hs.
  rewrite <- list_fmap_compose.
  erewrite list_fmap_ext; [exact Hs|].
  intros i m _. simpl. apply final_key_row.
Qed.

Lemma final_df_unique_items merged_df items :
  NoDup (map i_item_id items) ->
  final_df merged_df items
  = sort_values final_leb
      (map (fun m => final_row (m, joined_item items m)) merged_df).
Proof.
  intros Hnd. unfold final_df. rewrite merge_on_unique by done.
  by rewrite <- list_fmap_compose.
Qed.

Lemma final_df_on_sorted merged_df items :
  NoDup (map i_item_id items) ->
  StronglySorted (fun r1 r2 => merged_leb r1 r2 = true) merged_df ->
  final_df merged_df items
  = map (fun m => final_row (m, joined_item items m)) merged_df.
Proof.
  intros Hnd Hs. rewrite final_df_unique_items by done.
  apply sort_values_sorted_id. by apply final_rows_sorted.
Qed.

(** X11: when no item occurs twice in the item table, steps 8 to 10 keep
    the reconciled rows one for one: the final table is a rearrangement,
    in ascending order of item and date, of the reconciled rows, each
    beside the item row of its item or beside null metadata when there is
    none; and on a reconciled table that is already in that order the
    sort of step 10 moves nothing. *)
Theorem final_df_keeps_rows (merged_df : list MergedRow) (items : list ItemRow) :
  NoDup (map i_item_id items) ->
  StronglySorted (fun r1 r2 => final_leb r1 r2 = true) (final_df merged_df items) /\
  final_df merged_df items
  ≡ₚ map (fun m => final_row (m, joined_item items m)) merged_df /\
  length (final_df merged_df items) = length merged_df /\
  (StronglySorted (fun r1 r2 => merged_leb r1 r2 = true) merged_df ->
   final_df merged_df items
   = map (fun m => final_row (m, joined_item items m)) merged_df).
Proof.
  intros Hnd.
  pose proof (final_df_unique_items merged_df items Hnd) as Heq.
  split; [apply final_df_sorted|]. split; [|split].
  - rewrite Heq. apply sort_values_perm.
  - rewrite Heq.
    assert (Hp : forall l, sort_values final_leb l ≡ₚ l)
      by (intros l; apply sort_values_perm).
    by rewrite Hp, length_map.
  - intros Hs. by apply final_df_on_sorted.
Qed.

(** X12: when [main] returns, its table has the rows of the reconciled
    table, one for one and in the same order, with their item, date,
    revenue and price unchanged. A row whose item is in the raw table
    carries the identifier, brand, rating, counts and content fields of
    the first raw row of that item; a row whose item is not has null
    metadata. *)
Theorem main_table_rows (df : list ListingRow)
    (revenue_df promotion_df : list SeriesRow) (final : list FinalRow) :
  main_table lib df revenue_df promotion_df = Ok final ->
  exists merged_df,
    reconcile revenue_df promotion_df = Ok merged_df /\
    map (fun f => (f_item_id f, f_date f, f_revenue f, f_price f)) final
    = map (fun m => (m_item m, m_date m, m_revenue m, m_price m)) merged_df /\
    forall f, f ∈ final ->
      ((f_item_id f ∉ map item_id df) /\
       f_unique_identifier f = None /\ f_brand_name f = None /\
       f_rating f = None /\ f_rating_count f = None /\
       f_variations_count f = None /\ f_title f = PyNaN)
      \/
      (exists pre x post,
         df = pre ++ x :: post /\ item_id x = f_item_id f /\
         (f_item_id f ∉ map item_id pre) /\
         f_unique_identifier f = unique_identifier x /\
         f_brand_name f = brand_name x /\
         f_rating f = rating x /\ f_rating_count f = rating_count x /\
         f_variations_count f = variations_count x /\
         extract_page_content_fields lib (page_content x)
         = Ok {| title := f_title f; category := f_category f;
                 vertical := f_vertical f; subCategory := f_subCategory f;
                 superCategory := f_superCategory f |}).
Proof.
  unfold main_table.
  destruct (page_content_df lib df) as [items|e] eqn:Hitems; simpl; [|done].
  destruct (reconcile revenue_df promotion_df) as [merged_df|e] eqn:Hrec;
    simpl; [|done].
  intros [= <-]. exists merged_df. split; [done|].
  destruct (page_content_df_items df items Hitems) as (Hnd & Hkeys & Hrows).
  assert (Hsorted : StronglySorted (fun r1 r2 => merged_leb r1 r2 = true) merged_df).
  { unfold reconcile in Hrec.
    destruct (merge_left revenue_df promotion_df) as [m|e]; simpl in Hrec; [|done].
    injection Hrec as <-. apply forward_fill_sorted. }
  rewrite (final_df_on_sorted merged_df items Hnd Hsorted). split.
  - rewrite <- list_fmap_compose. apply list_fmap_ext.
    intros i m _. simpl. by destruct (joined_item items m).
  - intros f (m & -> & Hm)%list_elem_of_fmap.
    unfold joined_item.
    destruct (head (filter (fun i => i_item_id i = m_item m) items))
      as [i|] eqn:Hhead; simpl.
    + right. apply head_Some_elem_of, list_elem_of_filter in Hhead as [Hk Hi].
      destruct (Hrows i Hi) as (pre & x & post & Hdf & Hx & Hpre & Hmeta & Hex).
      exists pre, x, post. rewrite Hmeta. simpl. rewrite <- Hk.
      repeat (split; [done|]).
      rewrite Hex. by destruct (c_fields (i_content i)).
    + left. split; [|done].
      intros Hin%Hkeys. apply list_elem_of_fmap in Hin as (i & Hk & Hi).
      assert (Hf : i ∈ filter (fun i => i_item_id i = m_item m) items)
        by (by apply list_elem_of_filter).
      destruct (filter (fun i => i_item_id i = m_item m) items); [|done].
      by apply elem_of_nil in Hf.
Qed.

End MetadataFacts.

(** ** The filter and window engine *)

Section WindowFacts.
Import Dashboard.

Lemma filter_all {A : Type} (P : A -> Prop) `{!forall x, Decision (P x)} (l : list A) :
  (forall x, x ∈ l -> P x) -> filter P l = l.
Proof.
  induction l as [|x l IH]; intros Hall; [done|].
  rewrite filter_cons_True by (apply Hall; by left).
  f_equal. apply IH. intros y Hy. apply Hall. by right.
Qed.

Lemma filter_on_elements {A : Type} (P Q : A -> Prop)
    `{!forall x, Decision (P x)} `{!forall x, Decision (Q x)} (l : list A) :
  (forall x, x ∈ l -> P x <-> Q x) -> filter P l = filter Q l.
Proof.
  induction l as [|x l IH]; intros Hall; [done|].
  rewrite !filter_cons.
  assert (Hx : P x <-> Q x) by (apply Hall; by left).
  rewrite IH by (intros y Hy; apply Hall; by right).
  destruct (decide (P x)), (decide (Q x)); tauto.
Qed.

Lemma sorted_unique_elem {A : Type} `{Countable A} (leb : A -> A -> bool)
    (l : list A) k :
  k ∈ sort_values leb (unique l) <-> k ∈ l.
Proof.
  assert (Hp : sort_values leb (unique l) ≡ₚ unique l)
    by apply sort_values_perm.
  rewrite Hp. apply unique_elem.
Qed.

Lemma item_df_elem cfg raw x :
  x ∈ item_df cfg raw <-> x ∈ drop_duplicates raw /\ in_range cfg x = true.
Proof.
  unfold item_df. rewrite list_elem_of_filter, Is_true_true. tauto.
Qed.

Lemma in_range_bounds cfg x :
  in_range cfg x = true <->
  exists d, date x = Some d /\ date_start cfg <= d <= date_end cfg.
Proof.
  unfold in_range. destruct (date x) as [d|].
  - rewrite andb_true_iff, !Z.leb_le. split.
    + intros [H1 H2]. exists d. split; [done|lia].
    + intros (d' & [= <-] & H1). lia.
  - split; [done|]. by intros (d & Hd & _).
Qed.

(** The window is empty exactly when no row of the raw table is dated
    inside it. *)
Lemma item_df_nil cfg raw :
  item_df cfg raw = [] <-> forall r, r ∈ raw -> in_range cfg r = false.
Proof.
  split.
  - intros Hnil r Hr. destruct (in_range cfg r) eqn:Hin; [|done]. exfalso.
    assert (Hk : row_key r ∈ map row_key (drop_duplicates raw)).
    { unfold drop_duplicates. apply keep_first_keys.
      split; [by apply list_elem_of_fmap_2|set_solver]. }
    apply list_elem_of_fmap in Hk as (x & Hkx & Hx).
    assert (Hxin : x ∈ item_df cfg raw).
    { apply item_df_elem. split; [done|].
      unfold in_range in *. injection Hkx as _ Hd. by rewrite <- Hd. }
    rewrite Hnil in Hxin. by apply elem_of_nil in Hxin.
  - intros Hall. unfold item_df.
    destruct (filter _ (drop_duplicates raw)) as [|x l] eqn:Hf; [done|].
    assert (Hx : x ∈ filter (fun r => in_range cfg r) (drop_duplicates raw))
      by (rewrite Hf; by left).
    apply list_elem_of_filter in Hx as [Hin Hx]. apply Is_true_true in Hin.
    unfold drop_duplicates in Hx. apply keep_first_elem in Hx as [Hx _].
    rewrite (Hall x Hx) in Hin. done.
Qed.

(** On a window with rows, the latest and the reference date exist. *)
Lemma window_dates cfg raw :
  item_df cfg raw <> [] ->
  exists ld n,
    LATEST_DATE cfg raw = Some ld /\ nearest_4w cfg raw = Ok n /\
    ld ∈ item_dates cfg raw /\ n ∈ item_dates cfg raw /\
    forall d, d ∈ item_dates cfg raw -> d <= ld.
Proof.
  intros Hne.
  assert (Hdates : item_dates cfg raw <> []).
  { destruct (item_df cfg raw) as [|r rest] eqn:Hdf; [done|].
    assert (Hr : r ∈ item_df cfg raw) by (rewrite Hdf; by left).
    pose proof Hr as [_ (d & Hd & _)%in_range_bounds]%item_df_elem.
    assert (Hdin : d ∈ item_dates cfg raw)
      by (apply item_dates_elem; exists r; split; [exact Hr|exact Hd]).
    intros Hnil. rewrite Hnil in Hdin. by apply elem_of_nil in Hdin. }
  destruct (col_max (item_dates cfg raw)) as [ld|] eqn:Hmax;
    [|by destruct (item_dates cfg raw)].
  assert (Huniq : unique (item_dates cfg raw) <> []).
  { destruct (item_dates cfg raw) as [|d rest] eqn:Hd; [done|].
    intros Hnil. assert (Hin : d ∈ unique (d :: rest))
      by (apply unique_elem; by left).
    rewrite Hnil in Hin. by apply elem_of_nil in Hin. }
  destruct (py_min_first (fun d => Z.abs (d - (ld - FOUR_WEEKS))) _ Huniq)
    as (before & n & after & Heq & Hmin & _).
  destruct (col_max_spec _ _ Hmax) as [Hld Hle].
  exists ld, n. split; [done|]. split.
  { unfold nearest_4w, distance, FOUR_W_AGO, LATEST_DATE.
    rewrite Hmax. exact Hmin. }
  split; [done|]. split; [|done].
  apply unique_elem. rewrite Heq. apply elem_of_app. right. by left.
Qed.

(** A null brand among named ones in the window. *)
Lemma sorted_brands_raises cfg raw :
  sorted_brands cfg raw = Raise TypeError <->
  exists x y, x ∈ item_df cfg raw /\ y ∈ item_df cfg raw /\
              brand_name x = None /\ is_Some (brand_name y).
Proof.
  unfold sorted_brands, py_sorted.
  destruct (decide (None ∈ unique (map brand_name (item_df cfg raw)) /\
                    Exists is_Some (unique (map brand_name (item_df cfg raw)))))
    as [[Hn Hs]|Hno].
  - split; [intros _|done].
    apply (proj1 (unique_elem _ _)), list_elem_of_fmap in Hn as (x & Hx & Hxin).
    apply Exists_exists in Hs as (b & Hb & Hsome).
    apply (proj1 (unique_elem _ _)), list_elem_of_fmap in Hb as (y & -> & Hyin).
    by exists x, y.
  - split; [done|]. intros (x & y & Hx & Hy & Hnone & Hsome). exfalso.
    apply Hno. split.
    + apply unique_elem. rewrite <- Hnone. by apply list_elem_of_fmap_2.
    + apply Exists_exists. exists (brand_name y).
      split; [|done]. apply unique_elem. by apply list_elem_of_fmap_2.
Qed.

Lemma sorted_brands_cases cfg raw :
  sorted_brands cfg raw = Raise TypeError \/
  sorted_brands cfg raw = Ok (all_brands cfg raw).
Proof.
  unfold sorted_brands, py_sorted, all_brands.
  destruct (decide _); [by left|by right].
Qed.

(** On a window with rows and a start date that is not after the end
    date, the script either raises at [sorted] or reaches the tabs. *)
Lemma dashboard_on_window cfg raw :
  date_start cfg <= date_end cfg -> item_df cfg raw <> [] ->
  (dashboard cfg raw = Raise TypeError /\
   sorted_brands cfg raw = Raise TypeError) \/
  (raises (dashboard cfg raw) = false /\
   sorted_brands cfg raw = Ok (all_brands cfg raw)).
Proof.
  intros Hle Hne.
  destruct (window_dates cfg raw Hne) as (ld & n & _ & Hn & _).
  unfold dashboard.
  destruct (Z.ltb_spec (date_end cfg) (date_start cfg)); [lia|].
  rewrite Hn. simpl.
  destruct (sorted_brands_cases cfg raw) as [Hs|Hs]; rewrite Hs; simpl;
    [by left|by right].
Qed.

(** X13: how the script proceeds from the date check to the tabs, on
    the dates and selections that the widgets have returned. With the
    start date after the end date it stops. Otherwise it raises
    [ValueError] exactly when no row of the raw table is dated inside the
    window; it raises [TypeError] exactly when the window has a row
    without a brand and a row with one; and it reaches the tabs in every
    other case. *)
Theorem dashboard_outcome (cfg : Filters) (raw : list CanonicalRow) :
  (date_end cfg < date_start cfg -> dashboard cfg raw = Raise StopException) /\
  (date_start cfg <= date_end cfg ->
     (dashboard cfg raw = Raise ValueError <->
      forall r, r ∈ raw -> in_range cfg r = false) /\
     (dashboard cfg raw = Raise TypeError <->
      exists x y, x ∈ item_df cfg raw /\ y ∈ item_df cfg raw /\
                  brand_name x = None /\ is_Some (brand_name y)) /\
     (raises (dashboard cfg raw) = false <->
      (exists r, r ∈ raw /\ in_range cfg r = true) /\
      ~ exists x y, x ∈ item_df cfg raw /\ y ∈ item_df cfg raw /\
                    brand_name x = None /\ is_Some (brand_name y))).
Proof.
  split.
  - intros Hlt. unfold dashboard.
    destruct (Z.ltb_spec (date_end cfg) (date_start cfg)); [done|lia].
  - intros Hle. rewrite <- item_df_nil, <- sorted_brands_raises.
    assert (Hex : (exists r, r ∈ raw /\ in_range cfg r = true)
                  <-> item_df cfg raw <> []).
    { rewrite item_df_nil. split.
      - intros (r & Hr & Hin) Hall. rewrite (Hall r Hr) in Hin. done.
      - intros Hn. destruct (decide (Exists (fun r => in_range cfg r = true) raw))
          as [He|He].
        + apply Exists_exists in He as (r & Hr & Hin). by exists r.
        + exfalso. apply Hn. intros r Hr.
          destruct (in_range cfg r) eqn:Hin; [|done].
          exfalso. apply He, Exists_exists. by exists r. }
    rewrite Hex.
    destruct (decide (item_df cfg raw = [])) as [Hnil|Hne].
    + rewrite (empty_window_raises cfg raw Hle Hnil). simpl.
      split; [done|]. split; [|by split; [|intros [? _]]].
      split; [done|].
      unfold sorted_brands. rewrite Hnil. done.
    + destruct (dashboard_on_window cfg raw Hle Hne) as [[Hd Hs]|[Hd Hs]].
      * rewrite Hd, Hs. simpl. split; [done|]. split; [done|].
        split; [done|]. by intros [_ Hno].
      * rewrite Hs. destruct (dashboard cfg raw) as [k|e]; [|done].
        split; [done|]. split; [done|]. split; [|done]. intros _. split; done.
Qed.

Lemma active_brands_elem cfg raw x :
  x ∈ item_df cfg raw ->
  brand_name x ∈ active_brands cfg raw <->
  sel_brands cfg = [] \/ brand_name x ∈ sel_brands cfg.
Proof.
  intros Hx. unfold active_brands, all_brands.
  destruct (sel_brands cfg) as [|b bs] eqn:Hsel.
  - rewrite sorted_unique_elem. split; [by left|]. intros _.
    by apply list_elem_of_fmap_2.
  - split; [by right|]. by intros [?|?].
Qed.

Lemma active_skus_elem cfg raw x :
  x ∈ item_df cfg raw -> brand_name x ∈ active_brands cfg raw ->
  item_id x ∈ active_skus cfg raw <->
  sel_skus cfg = [] \/ item_id x ∈ sel_skus cfg.
Proof.
  intros Hx Hb. unfold active_skus, all_skus.
  destruct (sel_skus cfg) as [|s ss] eqn:Hsel.
  - rewrite sorted_unique_elem. split; [by left|]. intros _.
    apply list_elem_of_fmap_2. by apply list_elem_of_filter.
  - split; [by right|]. by intros [?|?].
Qed.

Lemma filt_elem cfg raw x :
  x ∈ filt cfg raw <->
  x ∈ item_df cfg raw /\
  (sel_brands cfg = [] \/ brand_name x ∈ sel_brands cfg) /\
  (sel_skus cfg = [] \/ item_id x ∈ sel_skus cfg).
Proof.
  unfold filt. rewrite list_elem_of_filter. split.
  - intros [[Hb Hs] Hx]. split; [done|].
    split; [by apply (active_brands_elem cfg raw x Hx)|].
    by apply (active_skus_elem cfg raw x Hx Hb).
  - intros (Hx & Hb & Hs).
    apply (active_brands_elem cfg raw x Hx) in Hb.
    split; [|done]. split; [done|].
    by apply (active_skus_elem cfg raw x Hx Hb).
Qed.

(** X14: an empty selection restricts nothing. A row of the window is in
    the filtered table exactly when its brand is selected or no brand is,
    and its item is selected or no item is; with nothing selected the
    filtered table is the whole window. *)
Theorem empty_selection_means_all (cfg : Filters) (raw : list CanonicalRow) :
  (forall x, x ∈ filt cfg raw <->
     x ∈ item_df cfg raw /\
     (sel_brands cfg = [] \/ brand_name x ∈ sel_brands cfg) /\
     (sel_skus cfg = [] \/ item_id x ∈ sel_skus cfg)) /\
  (sel_brands cfg = [] -> sel_skus cfg = [] -> filt cfg raw = item_df cfg raw).
Proof.
  split; [apply filt_elem|].
  intros Hb Hs. unfold filt. apply filter_all.
  intros x Hx.
  assert (Hf : x ∈ filt cfg raw) by (apply filt_elem; auto).
  unfold filt in Hf. by apply list_elem_of_filter in Hf as [Hf _].
Qed.

(** X15: nothing outside the window is ever used. Every row of the
    filtered table is a row of the raw table whose date lies between the
    start and the end date; and when the script reaches the tabs, the
    latest date lies in the window and the reference date lies between
    the start date and the latest date. *)
Theorem window_is_respected (cfg : Filters) (raw : list CanonicalRow) :
  (forall x, x ∈ filt cfg raw ->
     x ∈ raw /\
     exists d, date x = Some d /\ date_start cfg <= d <= date_end cfg) /\
  (forall k, dashboard cfg raw = Ok k ->
     exists ld,
       k_latest_date k = Some ld /\
       date_start cfg <= k_reference_date k <= ld /\ ld <= date_end cfg).
Proof.
  split.
  - intros x [[Hx Hin]%item_df_elem _]%filt_elem. split.
    + unfold drop_duplicates in Hx. by apply keep_first_elem in Hx as [Hx _].
    + by apply in_range_bounds.
  - intros k Hk. unfold dashboard in Hk.
    destruct (date_end cfg <? date_start cfg); [done|].
    destruct (decide (item_df cfg raw = [])) as [Hnil|Hne].
    { unfold nearest_4w, item_dates in Hk. rewrite Hnil in Hk. done. }
    destruct (window_dates cfg raw Hne) as (ld & n & Hld & Hn & Hldin & Hnin & Hmax).
    rewrite Hn in Hk. simpl in Hk.
    destruct (sorted_brands cfg raw) as [brands|e]; simpl in Hk; [|done].
    injection Hk as <-. simpl.
    exists ld. split; [done|].
    pose proof (Hmax n Hnin) as Hle.
    apply item_dates_elem in Hldin as (x & [_ Hx]%item_df_elem & Hdx).
    apply item_dates_elem in Hnin as (y & [_ Hy]%item_df_elem & Hdy).
    apply in_range_bounds in Hx as (d1 & Hd1 & Hb1).
    apply in_range_bounds in Hy as (d2 & Hd2 & Hb2).
    assert (d1 = ld) by congruence. assert (d2 = n) by congruence. subst.
    lia.
Qed.

End WindowFacts.

(** ** The per-item table and the classification *)

Section SkuFacts.
Import Dashboard Joins.

Lemma group_keys_NoDup rows : NoDup (group_keys rows).
Proof.
  unfold group_keys.
  assert (Hp : sort_values String.leb (unique (map item_id rows))
               ≡ₚ unique (map item_id rows)) by apply sort_values_perm.
  rewrite Hp. apply unique_NoDup.
Qed.

Lemma group_keys_sorted rows :
  StronglySorted (fun a b => String.leb a b = true) (group_keys rows).
Proof.
  unfold group_keys.
  apply (sort_values_sorted String.leb string_leb_total string_leb_trans).
Qed.

Lemma sku_prev_keys cfg raw ref :
  map fst (sku_prev cfg raw ref) = group_keys (prev cfg raw ref).
Proof.
  unfold sku_prev. rewrite <- list_fmap_compose. apply list_fmap_id.
Qed.

Lemma flat_map_singletons {A B : Type} (f : A -> list B) (g : A -> B) l :
  (forall x, f x = [g x]) -> flat_map f l = map g l.
Proof.
  intros Hf. induction l as [|x l IH]; [done|].
  change (flat_map f (x :: l)) with (f x ++ flat_map f l).
  by rewrite Hf, IH.
Qed.

Lemma sku_merged_unique cfg raw ref :
  sku_merged cfg raw ref
  = map (fun s => with_growth s (joined_revenue_4w cfg raw ref s))
      (sku_latest cfg raw).
Proof.
  unfold sku_merged. apply flat_map_singletons.
  intros s. unfold joined_revenue_4w.
  assert (Hnd : NoDup (map fst (sku_prev cfg raw ref)))
    by (rewrite sku_prev_keys; apply group_keys_NoDup).
  pose proof (filter_key_short fst (sku_prev cfg raw ref) (sl_item_id s) Hnd) as Hs.
  destruct (filter (fun p : string * option Q => p.1 = sl_item_id s)
              (sku_prev cfg raw ref)) as [|z zs]; simpl in *; [done|].
  by injection Hs as ->.
Qed.

Lemma sku_latest_ids cfg raw :
  map sl_item_id (sku_latest cfg raw) = group_keys (latest cfg raw).
Proof.
  unfold sku_latest. rewrite <- list_fmap_compose. apply list_fmap_id.
Qed.

Lemma sku_merged_ids cfg raw ref :
  map (fun r => sl_item_id (sku r)) (sku_merged cfg raw ref)
  = group_keys (latest cfg raw).
Proof.
  rewrite sku_merged_unique, <- list_fmap_compose, <- sku_latest_ids. done.
Qed.

(** X16: the per-item table has exactly one row per item of the latest
    snapshot, in ascending order of item identifier; the left merge with
    the reference snapshot neither drops nor repeats an item. *)
Theorem sku_merged_one_row_per_item
    (cfg : Filters) (raw : list CanonicalRow) (ref : Z) :
  NoDup (map (fun r => sl_item_id (sku r)) (sku_merged cfg raw ref)) /\
  StronglySorted (fun a b => String.leb a b = true)
    (map (fun r => sl_item_id (sku r)) (sku_merged cfg raw ref)) /\
  length (sku_merged cfg raw ref) = length (latest cfg raw) /\
  (forall k, k ∈ map (fun r => sl_item_id (sku r)) (sku_merged cfg raw ref)
             <-> exists x, x ∈ latest cfg raw /\ item_id x = k).
Proof.
  rewrite sku_merged_ids.
  split; [apply group_keys_NoDup|]. split; [apply group_keys_sorted|]. split.
  - rewrite <- (length_map (fun r => sl_item_id (sku r))), sku_merged_ids.
    unfold group_keys.
    assert (Hp : sort_values String.leb (unique (map item_id (latest cfg raw)))
                 ≡ₚ unique (map item_id (latest cfg raw)))
      by apply sort_values_perm.
    rewrite Hp. unfold unique.
    rewrite keep_first_id; [by rewrite length_map| |set_solver].
    rewrite map_id. unfold latest.
    apply snapshot_items_NoDup, filt_keys_NoDup.
  - intros k. rewrite group_keys_elem, list_elem_of_fmap. split.
    + intros (x & -> & Hx). by exists x.
    + intros (x & Hx & <-). by exists x.
Qed.

Lemma first_valid_single {B : Type} (v : option B) : first_valid [v] = v.
Proof. by destruct v. Qed.

Lemma latest_items_NoDup cfg raw : NoDup (map item_id (latest cfg raw)).
Proof. unfold latest. apply snapshot_items_NoDup, filt_keys_NoDup. Qed.

(** A row of [sku_latest] carries the columns of the only row of its item
    in the latest snapshot. *)
Lemma sku_latest_of_row cfg raw s x :
  s ∈ sku_latest cfg raw -> x ∈ latest cfg raw -> sl_item_id s = item_id x ->
  revenue_latest s = revenue x /\ sl_rating s = rating x /\
  sl_rating_count s = rating_count x /\
  sl_brand_name s = brand_name x /\ sl_title s = title x.
Proof.
  unfold sku_latest. intros (k & -> & _)%list_elem_of_fmap Hx Hk. simpl in *.
  subst k. unfold group.
  rewrite (filter_key_unique item_id (latest cfg raw) x (item_id x)
             (latest_items_NoDup cfg raw) Hx eq_refl).
  simpl. by rewrite !first_valid_single.
Qed.

(** X17: no item is at once in the revenue-at-risk table and in the
    high-scaling table. *)
Theorem risky_and_high_scaling_disjoint
    (cfg : Filters) (raw : list CanonicalRow) (ref : Z)
    (x : CanonicalRow) (r : SkuRow) :
  x ∈ risky cfg raw -> r ∈ high_scaling cfg raw ref ->
  sl_item_id (sku r) <> item_id x.
Proof.
  unfold risky, high_scaling.
  intros [Hrisk Hx]%list_elem_of_filter [Hsc Hr]%list_elem_of_filter Hk.
  apply Is_true_true in Hrisk, Hsc.
  destruct (sku_merged_row _ _ _ _ Hr) as (Hs & _ & _).
  destruct (sku_latest_of_row _ _ _ _ Hs Hx Hk) as (_ & Hrt & Hrc & _).
  rewrite <- Hrt, <- Hrc in Hrisk.
  by rewrite (at_risk_excludes_scaling cfg r Hrisk) in Hsc.
Qed.

Lemma risk_label_cases cfg r :
  (risk_label cfg r = AtRisk <->
   at_risk cfg (sl_rating (sku r)) (sl_rating_count (sku r)) = true) /\
  (risk_label cfg r = HighScaling <-> scaling cfg r = true) /\
  (risk_label cfg r = Stable <->
   at_risk cfg (sl_rating (sku r)) (sl_rating_count (sku r)) = false /\
   scaling cfg r = false).
Proof.
  unfold risk_label.
  destruct (at_risk cfg (sl_rating (sku r)) (sl_rating_count (sku r))) eqn:Hr.
  - rewrite (at_risk_excludes_scaling cfg r Hr).
    split; [done|]. split; split; try done. by intros [? _].
  - destruct (scaling cfg r); split; try done; split; split; try done.
    by intros [_ ?].
Qed.

(** X18: the labels of the scatter plot agree with the KPI tables. A row
    of the plot is labelled High-Scaling exactly when it is in the
    high-scaling table, At Risk exactly when it meets the At-Risk test,
    and Stable when it does neither; and every row of the high-scaling
    table is in the plot. *)
Theorem labels_agree_with_tables
    (cfg : Filters) (raw : list CanonicalRow) (ref : Z) :
  (forall r l, (r, l) ∈ risk_labels cfg raw ref ->
     (l = HighScaling <-> r ∈ high_scaling cfg raw ref) /\
     (l = AtRisk <->
      at_risk cfg (sl_rating (sku r)) (sl_rating_count (sku r)) = true) /\
     (l = Stable <->
      (r ∉ high_scaling cfg raw ref) /\
      at_risk cfg (sl_rating (sku r)) (sl_rating_count (sku r)) = false)) /\
  (forall r, r ∈ high_scaling cfg raw ref ->
     (r, HighScaling) ∈ risk_labels cfg raw ref).
Proof.
  assert (Hhs : forall r, r ∈ sku_merged cfg raw ref ->
                  (r ∈ high_scaling cfg raw ref <-> scaling cfg r = true)).
  { intros r Hr. unfold high_scaling.
    rewrite list_elem_of_filter, Is_true_true. tauto. }
  split.
  - intros r l (y & [= -> ->] & Hy)%list_elem_of_fmap.
    unfold scatter_data in Hy. apply list_elem_of_filter in Hy as [_ Hy].
    destruct (risk_label_cases cfg y) as (Ha & Hh & Hst).
    rewrite (Hhs y Hy). split; [done|]. split; [done|].
    rewrite Hst. split; intros [H1 H2]; split; try done.
    + by rewrite H2.
    + by destruct (scaling cfg y).
  - intros r Hr. pose proof Hr as Hr'. unfold high_scaling in Hr'.
    apply list_elem_of_filter in Hr' as [Hsc Hm]. apply Is_true_true in Hsc.
    unfold risk_labels. apply list_elem_of_fmap. exists r. split.
    + f_equal. symmetry. by apply risk_label_cases.
    + unfold scatter_data. apply list_elem_of_filter. split; [|done].
      unfold scaling, opt_gtb in Hsc.
      destruct (sku_growth_pct r); [eauto|done].
Qed.

Lemma growth_leb_total a b : growth_leb a b = false -> growth_leb b a = true.
Proof.
  unfold growth_leb.
  destruct (sku_growth_pct a) as [x|], (sku_growth_pct b) as [y|]; try done.
  intros Hf. apply Qle_bool_iff.
  apply not_true_iff_false in Hf. rewrite Qle_bool_iff in Hf.
  apply Qlt_le_weak. by apply Qnot_le_lt.
Qed.

Lemma growth_leb_trans a b c :
  growth_leb a b = true -> growth_leb b c = true -> growth_leb a c = true.
Proof.
  unfold growth_leb.
  destruct (sku_growth_pct a) as [x|], (sku_growth_pct b) as [y|],
    (sku_growth_pct c) as [z|]; try done.
  rewrite !Qle_bool_iff. apply Qle_trans.
Qed.

(** X19: the table of declining items holds exactly the rows of the
    per-item table whose growth is defined and negative, in ascending
    order of growth. *)
Theorem declining_rows (cfg : Filters) (raw : list CanonicalRow) (ref : Z) :
  (forall r, r ∈ declining cfg raw ref <->
     r ∈ sku_merged cfg raw ref /\
     exists g, sku_growth_pct r = Some g /\ (g < 0)%Q) /\
  StronglySorted (fun a b => growth_leb a b = true) (declining cfg raw ref).
Proof.
  split.
  - intros r. unfold declining.
    assert (Hp : forall l, sort_values growth_leb l ≡ₚ l)
      by (intros l; apply sort_values_perm).
    rewrite Hp, list_elem_of_filter, Is_true_true. unfold opt_ltb.
    destruct (sku_growth_pct r) as [g|].
    + rewrite Qltb_lt. split.
      * intros [Hg Hr]. split; [done|]. by exists g.
      * intros [Hr (g' & [= <-] & Hg)]. done.
    + split; [by intros [? _]|]. by intros [_ (g & ? & _)].
  - unfold declining.
    apply (sort_values_sorted growth_leb growth_leb_total growth_leb_trans).
Qed.

End SkuFacts.

(** ** Sums, shares and the trend *)

Section SumFacts.
Local Open Scope Q_scope.

Lemma fold_Qplus_acc (l : list Q) (a : Q) :
  fold_left Qplus l a == a + fold_left Qplus l 0.
Proof.
  revert a. induction l as [|x l IH]; intros a; simpl.
  - ring.
  - rewrite (IH (a + x)), (IH (0 + x)). ring.
Qed.

Lemma fold_Qplus_cons (x : Q) (l : list Q) :
  fold_left Qplus (x :: l) 0 == x + fold_left Qplus l 0.
Proof. simpl. rewrite fold_Qplus_acc. ring. Qed.

Lemma fold_Qplus_perm (l1 l2 : list Q) :
  l1 ≡ₚ l2 -> fold_left Qplus l1 0 == fold_left Qplus l2 0.
Proof.
  induction 1 as [|x l1 l2 _ IH|x y l|l1 l2 l3 _ IH1 _ IH2].
  - reflexivity.
  - rewrite !fold_Qplus_cons, IH. reflexivity.
  - rewrite !fold_Qplus_cons. ring.
  - by rewrite IH1.
Qed.

Lemma col_sum_cons (v : option Q) (c : list (option Q)) :
  col_sum (v :: c) == default 0 v + col_sum c.
Proof.
  unfold col_sum. destruct v as [a|]; simpl omap.
  - apply fold_Qplus_cons.
  - simpl. symmetry. apply Qplus_0_l.
Qed.

Lemma Qadd_nonneg (a b : Q) : 0 <= a -> 0 <= b -> 0 <= a + b.
Proof. intros Ha Hb. exact (Qplus_le_compat 0 a 0 b Ha Hb). Qed.

Lemma Qadd_le_r (a b : Q) : 0 <= a -> b <= a + b.
Proof.
  intros Ha. apply (Qle_trans _ (0 + b)).
  - rewrite Qplus_0_l. apply Qle_refl.
  - apply Qplus_le_compat; [done|apply Qle_refl].
Qed.

Lemma col_sum_nonneg (c : list (option Q)) :
  (forall v, Some v ∈ c -> 0 <= v) -> 0 <= col_sum c.
Proof.
  induction c as [|v c IH]; intros Hc.
  - unfold col_sum. simpl. apply Qle_refl.
  - rewrite col_sum_cons.
    assert (0 <= col_sum c) by (apply IH; intros w Hw; apply Hc; by right).
    assert (0 <= default 0 v).
    { destruct v as [a|]; simpl; [apply Hc; by left|apply Qle_refl]. }
    by apply Qadd_nonneg.
Qed.

End SumFacts.

(** ** Portfolio growth *)

Section PortfolioGrowth.
Import Dashboard Samples.




End PortfolioGrowth.

Section ShareFacts.
Import Dashboard Tabs.
Local Open Scope Q_scope.

Let rev_sum (rows : list CanonicalRow) : Q := col_sum (map revenue rows).

Lemma rev_sum_cons x rows :
  rev_sum (x :: rows) == default 0 (revenue x) + rev_sum rows.
Proof. unfold rev_sum. simpl map. apply col_sum_cons. Qed.

Lemma rev_sum_filter_le (P : CanonicalRow -> Prop)
    `{!forall x, Decision (P x)} rows :
  (forall x v, x ∈ rows -> revenue x = Some v -> 0 <= v) ->
  0 <= rev_sum (filter P rows) /\ rev_sum (filter P rows) <= rev_sum rows.
Proof.
  induction rows as [|x rows IH]; intros Hpos.
  - unfold rev_sum, col_sum. simpl. split; apply Qle_refl.
  - destruct IH as [IH0 IH1]; [intros y v Hy; apply Hpos; by right|].
    assert (Hx : 0 <= default 0 (revenue x)).
    { destruct (revenue x) as [v|] eqn:Hv; simpl; [|apply Qle_refl].
      eapply Hpos; [by left|done]. }
    rewrite filter_cons. destruct (decide (P x)).
    + rewrite !rev_sum_cons. split.
      * by apply Qadd_nonneg.
      * apply Qplus_le_compat; [apply Qle_refl|done].
    + rewrite rev_sum_cons. split; [done|].
      eapply Qle_trans; [exact IH1|]. by apply Qadd_le_r.
Qed.

(** X20: with revenues that are not negative, the revenue at risk lies
    between zero and the latest total; and whenever it is positive, which
    is when the script computes its share of the portfolio, the latest
    total is positive and the share lies above 0 and at most at 100. *)
Theorem revenue_at_risk_bounded (cfg : Filters) (raw : list CanonicalRow) :
  (forall x v, x ∈ latest cfg raw -> revenue x = Some v -> 0 <= v) ->
  (0 <= rev_at_risk cfg raw /\ rev_at_risk cfg raw <= total_rev_latest cfg raw) /\
  (0 < rev_at_risk cfg raw ->
   0 < total_rev_latest cfg raw /\
   0 < risk_share cfg raw /\ risk_share cfg raw <= 100).
Proof.
  intros Hpos.
  assert (Hb : 0 <= rev_at_risk cfg raw
               /\ rev_at_risk cfg raw <= total_rev_latest cfg raw).
  { unfold rev_at_risk, risky, total_rev_latest.
    by apply (rev_sum_filter_le _ (latest cfg raw)). }
  split; [done|]. destruct Hb as [H0 H1]. intros Hr.
  assert (Ht : 0 < total_rev_latest cfg raw)
    by (eapply Qlt_le_trans; [exact Hr|exact H1]).
  split; [done|].
  unfold risk_share, truthy.
  destruct (Qeq_bool (total_rev_latest cfg raw) 0) eqn:Hz; simpl.
  { apply Qeq_bool_iff in Hz. rewrite Hz in Ht. by apply Qlt_irrefl in Ht. }
  split.
  - apply (Qlt_le_trans _ (rev_at_risk cfg raw / total_rev_latest cfg raw * 1)).
    + rewrite Qmult_1_r. apply Qlt_shift_div_l; [done|]. by rewrite Qmult_0_l.
    + apply Qmult_le_l; [|by compute].
      apply Qlt_shift_div_l; [done|]. by rewrite Qmult_0_l.
  - apply (Qle_trans _ (1 * 100)); [|by compute].
    apply Qmult_le_r; [done|].
    apply Qle_shift_div_r; [done|]. by rewrite Qmult_1_l.
Qed.

End ShareFacts.

Section BrandFacts.
Import Dashboard Tabs.
Local Open Scope Q_scope.

Let rev_sum (rows : list CanonicalRow) : Q := col_sum (map revenue rows).

Let brand_sum (rows : list CanonicalRow) (b : string) : Q :=
  rev_sum (filter (fun r => brand_name r = Some b) rows).

Lemma brand_sums_nil (ks : list string) :
  fold_left Qplus (map (brand_sum []) ks) 0 == 0.
Proof.
  induction ks as [|k ks IH]; [reflexivity|].
  simpl map. rewrite fold_Qplus_cons, IH.
  unfold brand_sum, rev_sum, col_sum. simpl. reflexivity.
Qed.

Lemma brand_sums_skip (ks : list string) x rows :
  (forall b, brand_name x = Some b -> b ∉ ks) ->
  fold_left Qplus (map (brand_sum (x :: rows)) ks) 0
  == fold_left Qplus (map (brand_sum rows) ks) 0.
Proof.
  induction ks as [|k ks IH]; [reflexivity|].
  intros Hk.
  assert (Hks : forall b, brand_name x = Some b -> b ∉ ks).
  { intros b Hb Hin. apply (Hk b Hb). by right. }
  simpl map. rewrite !fold_Qplus_cons, (IH Hks).
  unfold brand_sum at 1. rewrite filter_cons.
  destruct (decide (brand_name x = Some k)) as [Heq|Hne]; [|reflexivity].
  exfalso. apply (Hk k Heq). by left.
Qed.

Lemma brand_sums_cons (ks : list string) x b rows :
  NoDup ks -> brand_name x = Some b -> b ∈ ks ->
  fold_left Qplus (map (brand_sum (x :: rows)) ks) 0
  == default 0 (revenue x) + fold_left Qplus (map (brand_sum rows) ks) 0.
Proof.
  induction ks as [|k ks IH]; [by intros _ _ ?%elem_of_nil|].
  intros [Hk Hnd]%NoDup_cons Hb Hin.
  simpl map. rewrite !fold_Qplus_cons.
  unfold brand_sum at 1. rewrite filter_cons.
  destruct (decide (brand_name x = Some k)) as [Heq|Hne].
  - rewrite brand_sums_skip by (intros b' Hb'; congruence).
    unfold rev_sum. simpl map. rewrite col_sum_cons.
    unfold brand_sum, rev_sum. ring.
  - apply elem_of_cons in Hin as [->|Hin]; [done|].
    rewrite (IH Hnd Hb Hin). unfold brand_sum. ring.
Qed.

(** Summing per brand and then over the brands is summing once over the
    rows that have a brand. *)
Lemma brand_sums_total (ks : list string) rows :
  NoDup ks -> (forall x b, x ∈ rows -> brand_name x = Some b -> b ∈ ks) ->
  fold_left Qplus (map (brand_sum rows) ks) 0
  == rev_sum (filter (fun r => is_Some (brand_name r)) rows).
Proof.
  intros Hnd. induction rows as [|x rows IH]; intros Hall.
  - rewrite brand_sums_nil. reflexivity.
  - assert (Hrest : fold_left Qplus (map (brand_sum rows) ks) 0
                    == rev_sum (filter (fun r => is_Some (brand_name r)) rows)).
    { apply IH. intros y b Hy. apply Hall. by right. }
    rewrite filter_cons.
    destruct (decide (is_Some (brand_name x))) as [[b Hb]|Hnone].
    + rewrite (brand_sums_cons ks x b rows Hnd Hb)
        by (eapply Hall; [by left|done]).
      rewrite Hrest. unfold rev_sum. simpl map. by rewrite col_sum_cons.
    + rewrite brand_sums_skip; [done|].
      intros b Hb. exfalso. apply Hnone. by rewrite Hb.
Qed.

Lemma brand_rev_values cfg raw :
  map snd (brand_rev cfg raw)
  = map (brand_sum (latest cfg raw))
      (sort_values String.leb (unique (omap brand_name (latest cfg raw)))).
Proof. unfold brand_rev. by rewrite <- list_fmap_compose. Qed.

Lemma brand_rev_keys cfg raw :
  map fst (brand_rev cfg raw)
  = sort_values String.leb (unique (omap brand_name (latest cfg raw))).
Proof. unfold brand_rev. rewrite <- list_fmap_compose. apply list_fmap_id. Qed.

Lemma brand_rev_keys_NoDup cfg raw :
  NoDup (sort_values String.leb (unique (omap brand_name (latest cfg raw)))).
Proof.
  assert (Hp : sort_values String.leb (unique (omap brand_name (latest cfg raw)))
               ≡ₚ unique (omap brand_name (latest cfg raw)))
    by apply sort_values_perm.
  rewrite Hp. apply unique_NoDup.
Qed.

Lemma brand_rev_keys_elem cfg raw b :
  b ∈ sort_values String.leb (unique (omap brand_name (latest cfg raw))) <->
  exists x, x ∈ latest cfg raw /\ brand_name x = Some b.
Proof. rewrite sorted_unique_elem. apply list_elem_of_omap. Qed.

Lemma brand_total_named cfg raw :
  brand_total cfg raw
  == rev_sum (filter (fun r => is_Some (brand_name r)) (latest cfg raw)).
Proof.
  unfold brand_total. rewrite brand_rev_values.
  apply brand_sums_total; [apply brand_rev_keys_NoDup|].
  intros x b Hx Hb. apply brand_rev_keys_elem. by exists x.
Qed.

(** X21: the brand table leaves the rows without a brand out. Its
    revenues add up to the revenue of the rows of the latest snapshot that
    have a brand, which is the latest total when every row has one; every
    brand of the latest snapshot has exactly one line in it, and the
    revenue on that line is the revenue of the rows of that brand. *)
Theorem brand_revenue_adds_up (cfg : Filters) (raw : list CanonicalRow) :
  brand_total cfg raw
  == col_sum (map revenue
                (filter (fun r => is_Some (brand_name r)) (latest cfg raw))) /\
  ((forall x, x ∈ latest cfg raw -> is_Some (brand_name x)) ->
   brand_total cfg raw == total_rev_latest cfg raw) /\
  NoDup (map fst (brand_rev cfg raw)) /\
  (forall b, b ∈ map fst (brand_rev cfg raw) <->
             exists x, x ∈ latest cfg raw /\ brand_name x = Some b) /\
  (forall b v, (b, v) ∈ brand_rev cfg raw ->
     v = col_sum (map revenue
                    (filter (fun r => brand_name r = Some b) (latest cfg raw)))).
Proof.
  split; [apply brand_total_named|]. split.
  { intros Hall. rewrite brand_total_named. unfold rev_sum, total_rev_latest.
    by rewrite filter_all. }
  rewrite brand_rev_keys. split; [apply brand_rev_keys_NoDup|].
  split; [apply brand_rev_keys_elem|].
  intros b v. unfold brand_rev. by intros (b' & [= -> ->] & _)%list_elem_of_fmap.
Qed.

Lemma omap_all_None {A B : Type} (f : A -> option B) (l : list A) :
  (forall x, x ∈ l -> f x = None) -> omap f l = [].
Proof.
  induction l as [|x l IH]; intros Hall; [done|].
  simpl. rewrite (Hall x) by (by left). apply IH.
  intros y Hy. apply Hall. by right.
Qed.

(** X22: with at most three lines in the brand table and a brand revenue
    that is not zero, the three largest brands hold the whole brand
    revenue and the concentration warning is shown; when no row of the
    latest snapshot has a brand, in particular when the snapshot is empty,
    the brand table is empty, the share is not a number and the warning is
    not shown. *)
Theorem concentration_with_few_brands (cfg : Filters) (raw : list CanonicalRow) :
  ((length (brand_rev cfg raw) <= 3)%nat ->
   ~ brand_total cfg raw == 0 ->
   fold_left Qplus (top_3 cfg raw) 0 == brand_total cfg raw /\
   over_concentrated cfg raw = true) /\
  ((forall x, x ∈ latest cfg raw -> brand_name x = None) ->
   brand_rev cfg raw = [] /\
   top_3_share cfg raw = NotANumber /\ over_concentrated cfg raw = false).
Proof.
  split.
  - intros Hlen Hbz.
    assert (Htop : fold_left Qplus (top_3 cfg raw) 0 == brand_total cfg raw).
    { unfold top_3, brand_total.
      rewrite take_ge.
      - apply fold_Qplus_perm, sort_values_perm.
      - assert (Hp : forall l : list Q,
                   sort_values (fun a b => Qle_bool b a) l ≡ₚ l)
          by (intros l; apply sort_values_perm).
        rewrite Hp, length_map. exact Hlen. }
    split; [exact Htop|].
    unfold over_concentrated, top_3_share, np_div.
    destruct (Qeq_bool (brand_total cfg raw) 0) eqn:Hz;
      [by apply Qeq_bool_iff in Hz|].
    simpl. apply Qltb_lt. rewrite Htop.
    setoid_replace (brand_total cfg raw / brand_total cfg raw * 100) with 100
      using relation Qeq; [done|].
    field. exact Hbz.
  - intros Hall.
    assert (Hnil : brand_rev cfg raw = []).
    { unfold brand_rev. by rewrite (omap_all_None _ _ Hall). }
    split; [done|].
    unfold over_concentrated, top_3_share, top_3, brand_total.
    rewrite Hnil. done.
Qed.

End BrandFacts.

Section TrendFacts.
Import Dashboard Tabs.

Lemma Zleb_total x y : Z.leb x y = false -> Z.leb y x = true.
Proof. rewrite Z.leb_gt, Z.leb_le. lia. Qed.

Lemma Zleb_trans x y z : Z.leb x y = true -> Z.leb y z = true -> Z.leb x z = true.
Proof. rewrite !Z.leb_le. lia. Qed.

Lemma trend_dates cfg raw :
  map fst (trend_agg cfg raw)
  = sort_values Z.leb (unique (omap date (filt cfg raw))).
Proof. unfold trend_agg. rewrite <- list_fmap_compose. apply list_fmap_id. Qed.

Lemma trend_dates_elem cfg raw d :
  d ∈ sort_values Z.leb (unique (omap date (filt cfg raw))) <->
  exists x, x ∈ filt cfg raw /\ date x = Some d.
Proof.
  assert (Hp : sort_values Z.leb (unique (omap date (filt cfg raw)))
               ≡ₚ unique (omap date (filt cfg raw))) by apply sort_values_perm.
  rewrite Hp, unique_elem. apply list_elem_of_omap.
Qed.

Lemma latest_by_date cfg raw d :
  LATEST_DATE cfg raw = Some d ->
  latest cfg raw = filter (fun r => date r = Some d) (filt cfg raw).
Proof.
  intros Hd. unfold latest. rewrite Hd. apply filter_on_elements.
  intros x _. rewrite Is_true_true. split; [apply date_eqb_eq|].
  intros ->. simpl. apply Z.eqb_refl.
Qed.

(** X23: the portfolio trend has one point per date of the filtered
    table, in ascending order of date, whose value is the revenue of the
    rows of that date; when the latest snapshot has a row, the point of
    the latest date is the Total Revenue KPI and no point is dated after
    it. *)
Theorem trend_matches_total (cfg : Filters) (raw : list CanonicalRow) :
  (forall d v, (d, v) ∈ trend_agg cfg raw <->
     (exists x, x ∈ filt cfg raw /\ date x = Some d) /\
     v = col_sum (map revenue (filter (fun r => date r = Some d) (filt cfg raw)))) /\
  NoDup (map fst (trend_agg cfg raw)) /\
  StronglySorted (fun a b => Z.leb a b = true) (map fst (trend_agg cfg raw)) /\
  (forall d, LATEST_DATE cfg raw = Some d -> latest cfg raw <> [] ->
     (d, total_rev_latest cfg raw) ∈ trend_agg cfg raw /\
     forall d' v, (d', v) ∈ trend_agg cfg raw -> d' <= d).
Proof.
  assert (Hpt : forall d v, (d, v) ∈ trend_agg cfg raw <->
     (exists x, x ∈ filt cfg raw /\ date x = Some d) /\
     v = col_sum (map revenue (filter (fun r => date r = Some d) (filt cfg raw)))).
  { intros d v. unfold trend_agg. rewrite list_elem_of_fmap. split.
    - intros (d' & [= -> ->] & Hd). split; [by apply trend_dates_elem|done].
    - intros [Hd ->]. exists d. split; [done|]. by apply trend_dates_elem. }
  split; [exact Hpt|]. rewrite trend_dates. split; [|split].
  - assert (Hp : sort_values Z.leb (unique (omap date (filt cfg raw)))
                 ≡ₚ unique (omap date (filt cfg raw))) by apply sort_values_perm.
    rewrite Hp. apply unique_NoDup.
  - apply (sort_values_sorted Z.leb Zleb_total Zleb_trans).
  - intros d Hd Hne. split.
    + apply Hpt. split.
      * destruct (latest cfg raw) as [|x l] eqn:Hl; [done|].
        assert (Hx : x ∈ latest cfg raw) by (rewrite Hl; by left).
        unfold latest in Hx. apply list_elem_of_filter in Hx as [Hdx Hx].
        exists x. split; [done|].
        apply Is_true_true, date_eqb_eq in Hdx. by rewrite Hdx.
      * unfold total_rev_latest. by rewrite (latest_by_date cfg raw d Hd).
    + intros d' v [(x & Hx & Hdx) _]%Hpt.
      unfold LATEST_DATE in Hd. apply col_max_spec in Hd as [_ Hmax].
      apply Hmax, item_dates_elem. exists x. split; [|done].
      by apply filt_elem in Hx as [Hx _].
Qed.

Lemma col_min_spec col m :
  col_min col = Some m -> m ∈ col /\ forall d, d ∈ col -> m <= d.
Proof.
  destruct col as [|x rest]; [done|]. simpl. intros [= <-].
  assert (Hgen : forall l b, (fold_left Z.min l b = b \/ fold_left Z.min l b ∈ l)
                             /\ fold_left Z.min l b <= b
                             /\ forall d, d ∈ l -> fold_left Z.min l b <= d).
  { induction l as [|y l IH]; intros b; simpl.
    - split; [by left|]. split; [lia|]. by intros d ?%elem_of_nil.
    - destruct (IH (Z.min b y)) as (Hin & Hb & Hl). split; [|split].
      + destruct Hin as [Hin|Hin].
        * destruct (Z.min_spec b y) as [[_ Hm]|[_ Hm]]; rewrite Hm in *.
          -- by left.
          -- right. rewrite Hin. by left.
        * right. by right.
      + lia.
      + intros d [->|Hd]%elem_of_cons; [lia|by apply Hl]. }
  destruct (Hgen rest x) as (Hin & Hb & Hl). split.
  - destruct Hin as [->|Hin]; [by left|by right].
  - intros d [->|Hd]%elem_of_cons; [done|by apply Hl].
Qed.

(** X24: the default filters, which [Clear Filters] restores, leave
    nothing out: they exist when some row of the table has a date,
    nothing is selected in them, and the filtered table is then the whole
    deduplicated table without its undated rows. With them the script
    neither stops nor finds an empty window: it raises [TypeError] when
    that table has a row without a brand and a row with one, and reaches
    the tabs otherwise. *)
Theorem filter_defaults_cover_table (raw : list CanonicalRow) :
  ((exists r, r ∈ raw /\ is_Some (date r)) -> is_Some (FILTER_DEFAULTS raw)) /\
  (forall cfg, FILTER_DEFAULTS raw = Some cfg ->
     sel_brands cfg = [] /\ sel_skus cfg = [] /\
     filt cfg raw = filter (fun r => is_Some (date r)) (drop_duplicates raw) /\
     (dashboard cfg raw = Raise TypeError <->
      exists x y, x ∈ filt cfg raw /\ y ∈ filt cfg raw /\
                  brand_name x = None /\ is_Some (brand_name y)) /\
     (raises (dashboard cfg raw) = false <->
      ~ exists x y, x ∈ filt cfg raw /\ y ∈ filt cfg raw /\
                    brand_name x = None /\ is_Some (brand_name y))).
Proof.
  unfold FILTER_DEFAULTS.
  destruct (omap date raw) as [|d0 ds] eqn:Hdates.
  - simpl. split; [|done]. intros (r & Hr & [d Hd]).
    assert (Hin : d ∈ omap date raw) by (apply list_elem_of_omap; eauto).
    rewrite Hdates in Hin. by apply elem_of_nil in Hin.
  - rewrite <- Hdates.
    destruct (col_min (omap date raw)) as [lo|] eqn:Hlo;
      [|by rewrite Hdates in Hlo].
    destruct (col_max (omap date raw)) as [hi|] eqn:Hhi;
      [|by rewrite Hdates in Hhi].
    apply col_min_spec in Hlo as [Hlo_in Hlo].
    apply col_max_spec in Hhi as [Hhi_in Hhi].
    split; [eauto|].
    intros cfg [= <-]. simpl.
    set (cfg := {| date_start := lo; date_end := hi; sel_brands := [];
                   sel_skus := []; rating_thresh := 4; count_thresh := 200;
                   growth_thresh := 20 |}).
    assert (Hrange : forall r, r ∈ raw -> in_range cfg r = true <-> is_Some (date r)).
    { intros r Hr. rewrite in_range_bounds. simpl. split.
      - intros (d & -> & _). eauto.
      - intros [d Hd]. exists d. split; [done|].
        assert (Hin : d ∈ omap date raw) by (apply list_elem_of_omap; eauto).
        split; [by apply Hlo|by apply Hhi]. }
    assert (Hdf : item_df cfg raw
                  = filter (fun r => is_Some (date r)) (drop_duplicates raw)).
    { unfold item_df. apply filter_on_elements. intros x Hx.
      unfold drop_duplicates in Hx. apply keep_first_elem in Hx as [Hx _].
      rewrite Is_true_true. by apply Hrange. }
    assert (Hfilt : filt cfg raw = item_df cfg raw).
    { unfold filt. apply filter_all. intros x Hx.
      assert (Hf : x ∈ filt cfg raw) by (apply filt_elem; auto).
      unfold filt in Hf. by apply list_elem_of_filter in Hf as [Hf _]. }
    split; [done|]. split; [done|]. split; [by rewrite Hfilt|].
    rewrite Hfilt, <- sorted_brands_raises.
    assert (Hle : date_start cfg <= date_end cfg) by (simpl; by apply Hlo).
    assert (Hne : item_df cfg raw <> []).
    { apply list_elem_of_omap in Hlo_in as (r & Hr & Hd).
      intros Hnil. eapply item_df_nil in Hnil; [|exact Hr].
      assert (Hin : in_range cfg r = true) by (apply Hrange; eauto).
      congruence. }
    destruct (dashboard_on_window cfg raw Hle Hne) as [[Hd Hs]|[Hd Hs]].
    + rewrite Hd, Hs. simpl. split; [done|]. by split; [|intros Hno].
    + rewrite Hs. destruct (dashboard cfg raw) as [k|e]; [|done].
      split; [done|]. by split.
Qed.

(** X25: on a window of a single day that has rows, the reference date
    is the latest date, the two snapshots are the same, the portfolio
    growth is zero and every item has its latest revenue as reference
    revenue. *)
Theorem single_day_window (cfg : Filters) (raw : list CanonicalRow) :
  date_start cfg = date_end cfg -> item_df cfg raw <> [] ->
  LATEST_DATE cfg raw = Some (date_start cfg) /\
  nearest_4w cfg raw = Ok (date_start cfg) /\
  prev cfg raw (date_start cfg) = latest cfg raw /\
  (growth_pct cfg raw (date_start cfg) == 0)%Q /\
  (forall r, r ∈ sku_merged cfg raw (date_start cfg) ->
     revenue_4w r = revenue_latest (sku r)).
Proof.
  intros Heq Hne.
  destruct (window_dates cfg raw Hne) as (ld & n & Hld & Hn & Hldin & Hnin & _).
  assert (Hall : forall d, d ∈ item_dates cfg raw -> d = date_start cfg).
  { intros d (x & [_ Hx]%item_df_elem & Hd)%item_dates_elem.
    apply in_range_bounds in Hx as (d' & Hd' & Hb).
    assert (d' = d) by congruence. lia. }
  rewrite (Hall ld Hldin) in Hld. rewrite (Hall n Hnin) in Hn.
  assert (Hprev : prev cfg raw (date_start cfg) = latest cfg raw).
  { unfold prev, latest. by rewrite Hld. }
  split; [done|]. split; [done|]. split; [done|]. split.
  - unfold growth_pct, total_rev_4w. rewrite Hprev.
    fold (total_rev_latest cfg raw).
    unfold truthy.
    destruct (Qeq_bool (total_rev_latest cfg raw) 0) eqn:Hz; simpl;
      [reflexivity|].
    apply Qeq_bool_neq in Hz. field. exact Hz.
  - intros r Hr. destruct (sku_merged_row _ _ _ _ Hr) as (Hs & H4 & _).
    rewrite H4, Hprev. symmetry. by apply sku_latest_row.
Qed.

End TrendFacts.

(** ** Instances *)

Section Instances.
Import Listing Reconcile Metadata Samples MoreSamples.

Lemma price_rows_keys_NoDup : NoDup (map series_key price_rows).
Proof. apply (bool_decide_unpack _). by vm_compute. Qed.

Lemma merge_left_rows_witness :
  exists merged_df,
    merge_left revenue_rows price_rows = Ok merged_df /\
    length merged_df = 3%nat.
Proof.
  eexists. split; [reflexivity|].
  exact (proj2 (merge_left_rows revenue_rows price_rows _ eq_refl)).
Defined.

Lemma merge_left_unique_prices_witness :
  merge_left revenue_rows price_rows
  = Ok (map (fun l => join_row l (head (matches l price_rows) ≫= s_value))
          revenue_rows).
Proof.
  apply (proj1 (merge_left_unique_prices revenue_rows price_rows
                  ltac:(discriminate) ltac:(discriminate)
                  price_rows_keys_NoDup)).
Defined.

Lemma forward_fill_no_gap_witness :
  is_Some (m_price (merged_row "A" 3 (Some 3%Q))).
Proof.
  apply (forward_fill_no_gap merged_sample []
           (merged_row "A" 1 (Some 3%Q))
           [merged_row "A" 2 (Some 3%Q); merged_row "A" 3 (Some 3%Q);
            merged_row "B" 2 (Some 7%Q)]
           (merged_row "A" 3 (Some 3%Q))).
  - reflexivity.
  - by eexists.
  - right. left.
  - reflexivity.
Defined.

Lemma final_df_keeps_rows_witness :
  length (final_df (forward_fill merged_sample) [item_row_A]) = 4%nat.
Proof.
  apply (proj1 (proj2 (proj2 (final_df_keeps_rows
                                (forward_fill merged_sample) [item_row_A]
                                ltac:(apply (bool_decide_unpack _); by vm_compute))))).
Defined.

Lemma main_table_rows_witness :
  exists merged_df,
    reconcile revenue_rows price_rows = Ok merged_df /\
    length merged_df = 3%nat.
Proof.
  destruct (main_table_rows sample_library listing_rows revenue_rows price_rows
              (match main_table sample_library listing_rows revenue_rows price_rows with
               | Ok final => final
               | Raise _ => []
               end) eq_refl) as (merged_df & Hm & _).
  exists merged_df. split; [exact Hm|].
  vm_compute in Hm. by injection Hm as <-.
Defined.

End Instances.

Section DashboardInstances.
Import Dashboard Samples.

Lemma risky_and_high_scaling_disjoint_witness :
  canonical "sku-2" "zenith" 56 60 3 500
  ∈ risky (default_filters 0 100 []) sample_table /\
  "sku-1"%string <> "sku-2"%string.
Proof.
  assert (Hx : canonical "sku-2" "zenith" 56 60 3 500
               ∈ risky (default_filters 0 100 []) sample_table)
    by (vm_compute; left).
  split; [exact Hx|].
  assert (Hr : {| sku := {| sl_item_id := "sku-1"; revenue_latest := Some 150%Q;
                           sl_rating := Some (9 # 2)%Q; sl_rating_count := Some 50;
                           sl_brand_name := Some "acme"%string;
                           sl_title := None |};
                  revenue_4w := Some 100%Q;
                  sku_growth_pct := Some ((150 - 100) / 100 * 100)%Q |}
               ∈ high_scaling (default_filters 0 100 []) sample_table 30)
    by (vm_compute; left).
  exact (risky_and_high_scaling_disjoint _ _ _ _ _ Hx Hr).
Defined.

Lemma sample_revenues_nonneg (x : CanonicalRow) (v : Q) :
  x ∈ latest (default_filters 0 100 []) sample_table ->
  revenue x = Some v -> (0 <= v)%Q.
Proof.
  intros Hx Hv. vm_compute in Hx.
  apply elem_of_cons in Hx as [->|Hx]; [injection Hv as <-; done|].
  apply list_elem_of_singleton in Hx as ->. injection Hv as <-. done.
Qed.

Lemma revenue_at_risk_bounded_witness :
  (rev_at_risk (default_filters 0 100 []) sample_table
   <= total_rev_latest (default_filters 0 100 []) sample_table)%Q.
Proof.
  apply (proj2 (proj1 (revenue_at_risk_bounded (default_filters 0 100 [])
                         sample_table sample_revenues_nonneg))).
Defined.

Lemma single_day_window_witness :
  nearest_4w (default_filters 56 56 []) sample_table = Ok 56.
Proof.
  apply (proj1 (proj2 (single_day_window (default_filters 56 56 []) sample_table
                         eq_refl ltac:(vm_compute; discriminate)))).
Defined.

End DashboardInstances.
